(** * Podcastify request service: a shallow embedding of
      [podcastfy/api/fast_app.py] and [podcastfy/storage/*.py].

    Python objects are modelled as the interpreter has them: dictionaries
    are objects in a store, reached through references, so that a shallow
    [dict.copy()] shares the nested dictionaries with its original.
    Exceptions are explicit outcomes, and the code is written in a small
    state-and-exception monad.

    Conventions.  A string is its sequence of bytes.  The file system is a
    map from paths to contents, a path being the string that names it.
    Calls to the logger are left out; a log line is kept only where the
    evaluation of its arguments can raise.  What the program calls and
    does not define (environment, YAML loader, generation library, codec,
    temporary files, network clients) is a record of functions, [env]. *)

From Stdlib Require Import ZArith String Ascii List Lia Bool.
From Stdlib.Strings Require Import Byte.
From stdpp Require Import base option list gmap strings pretty.

Set Warnings "-register-all".

Local Open Scope string_scope.
Local Open Scope Z_scope.
Local Open Scope list_scope.

(** ** Exceptions

    Only subclasses of [Exception] are modelled: every [except Exception]
    clause of the source catches all of them.  An exception is recorded by
    the statement that raised it, so that [str(e)] never has to be computed. *)

Inductive exn : Type :=
| Builtin (cls : string)               (* raised by the interpreter or a builtin *)
| Raised (cls : string) (msg : string) (* [raise Cls("msg")], or raised by a collaborator *)
| Wrapped (prefix : string) (cause : exn) (* [raise Exception(f"prefix{str(e)}")] *)
| HTTPException (status : Z) (detail : string)      (* [HTTPException(status, detail="...")] *)
| HTTPExceptionOf (status : Z) (cause : exn).       (* [HTTPException(status, detail=str(e))] *)

Definition AttributeError : exn := Builtin "AttributeError".
Definition TypeError : exn := Builtin "TypeError".
Definition KeyError : exn := Builtin "KeyError".
Definition FileNotFoundError : exn := Builtin "FileNotFoundError".

Inductive outcome (A : Type) : Type :=
| Ok (a : A)
| Raise (e : exn).
Arguments Ok {A} a.
Arguments Raise {A} e.

(** ** The state-and-exception monad *)

Definition M (S A : Type) : Type := S -> outcome A * S.

Definition ret {S A} (a : A) : M S A := fun s => (Ok a, s).

Definition raise {S A} (e : exn) : M S A := fun s => (Raise e, s).

Definition bind {S A B} (m : M S A) (k : A -> M S B) : M S B :=
  fun s => match m s with
           | (Ok a, s') => k a s'
           | (Raise e, s') => (Raise e, s')
           end.

(** [try: m  except Exception as e: h e] *)
Definition try_except {S A} (m : M S A) (h : exn -> M S A) : M S A :=
  fun s => match m s with
           | (Ok a, s') => (Ok a, s')
           | (Raise e, s') => h e s'
           end.

Definition gets {S A} (f : S -> A) : M S A := fun s => (Ok (f s), s).
Definition modify {S} (f : S -> S) : M S unit := fun s => (Ok tt, f s).
Definition of_outcome {S A} (o : outcome A) : M S A := fun s => (o, s).

Declare Scope py_scope.
Delimit Scope py_scope with py.
Notation "'let*' x ':=' m 'in' k" := (bind m (fun x => k))
  (at level 10, x pattern, m at level 100, k at level 200) : py_scope.
Notation "m1 '>>' m2" := (bind m1 (fun _ => m2))
  (at level 90, right associativity) : py_scope.
Local Open Scope py_scope.

(** [for x in xs: body x] *)
Fixpoint for_each {S A} (xs : list A) (body : A -> M S unit) : M S unit :=
  match xs with
  | [] => ret tt
  | x :: xs' => body x >> for_each xs' body
  end.

(** ** Python values and the object store *)

(** Addresses in the store *)
Abbreviation addr := nat (only parsing).

Inductive value : Type :=
| VNone
| VBool (b : bool)
| VInt (n : Z)
| VFloat (bits : Z)          (* an IEEE 754 binary64, by its 64 bits *)
| VStr (s : string)
| VList (vs : list value)
| VDict (a : addr).          (* a reference to a dictionary object *)

(** A dictionary object: its items in insertion order, keys unique.  The
    keys are strings, as in a JSON object or a YAML mapping of settings. *)
Definition pydict := list (string * value).

(** The store: the dictionary objects, by address *)
Abbreviation heap := (list pydict) (only parsing).

Fixpoint dict_get (k : string) (d : pydict) : option value :=
  match d with
  | [] => None
  | (k', v) :: d' => if String.eqb k k' then Some v else dict_get k d'
  end.

(** [k in d] *)
Definition dict_mem (k : string) (d : pydict) : bool :=
  match dict_get k d with Some _ => true | None => false end.

(** [d[k] = v]: an existing key keeps its position, a new key goes last. *)
Fixpoint dict_set (k : string) (v : value) (d : pydict) : pydict :=
  match d with
  | [] => [(k, v)]
  | (k', v') :: d' =>
      if String.eqb k k' then (k', v) :: d' else (k', v') :: dict_set k v d'
  end.

(** Reading the object behind a reference.  A reference always points to a
    live object in Python; the exception here is only the model's answer to
    an address that was never allocated. *)
Definition deref (a : addr) : M heap pydict :=
  fun h => match h !! a with
           | Some d => (Ok d, h)
           | None => (Raise (Builtin "dangling reference"), h)
           end.

Definition store (a : addr) (d : pydict) : M heap unit :=
  modify (fun h => <[a := d]> h).

(** A new dictionary object, [{...}] or [d.copy()] *)
Definition new_dict (d : pydict) : M heap addr :=
  fun h => (Ok (List.length h), h ++ [d]).

(** [d[k] = v] on the object at [a] *)
Definition setitem (a : addr) (k : string) (v : value) : M heap unit :=
  let* d := deref a in store a (dict_set k v d).

(** [obj.get(k, default)], the default being already evaluated *)
Definition py_get (obj : value) (k : string) (default : value) : M heap value :=
  match obj with
  | VDict a => let* d := deref a in
               ret (match dict_get k d with Some v => v | None => default end)
  | _ => raise AttributeError
  end.

Section Merge.
(** [dict.update] with an argument that is not a mapping follows the
    builtin's protocol for sequences of pairs; it is no part of this
    program and is taken as a parameter: the new items of the target and
    the exception raised on the way, if any. *)
Variable update_from_seq : pydict -> value -> pydict * option exn.

(** [target.update(arg)] *)
Definition py_update (target arg : value) : M heap unit :=
  match target with
  | VDict a =>
      match arg with
      | VDict b =>
          let* items := deref b in
          for_each items (fun kv => setitem a (fst kv) (snd kv))
      | VStr _ | VList _ =>
          let* d := deref a in
          let (d', e) := update_from_seq d arg in
          store a d' >>
          match e with Some e => raise e | None => ret tt end
      | VNone | VBool _ | VInt _ | VFloat _ => raise TypeError
      end
  | _ => raise AttributeError
  end.

(** *** [merge_configs] (fast_app.py, lines 34-48) *)
Definition merge_configs (base_config user_config : addr) : M heap addr :=
  let* b := deref base_config in
  let* merged := new_dict b in                        (* base_config.copy() *)
  let* m := deref merged in
  let* u := deref user_config in
  (if dict_mem "text_to_speech" m && dict_mem "text_to_speech" u then
     let* target := of_outcome
                      (match dict_get "text_to_speech" m with
                       | Some v => Ok v | None => Raise KeyError end) in
     let* empty := new_dict [] in                     (* the default {} *)
     let* arg := py_get (VDict user_config) "text_to_speech" (VDict empty) in
     py_update target arg
   else ret tt) >>
  let* items := deref user_config in
  for_each items (fun kv =>
    let (key, value) := kv : string * value in
    if negb (String.eqb key "text_to_speech") then
      match value with
      | VNone => ret tt
      | _ => setitem merged key value
      end
    else ret tt) >>
  ret merged.
End Merge.

(** ** Builtins on values *)

(** Truth value of an object, as [if v:] and [bool(v)] take it. *)
Definition truthy (h : heap) (v : value) : bool :=
  match v with
  | VNone => false
  | VBool b => b
  | VInt n => negb (n =? 0)
  | VFloat bits => negb (bits mod 2 ^ 63 =? 0)          (* 0.0 and -0.0 *)
  | VStr s => negb (String.eqb s "")
  | VList vs => match vs with [] => false | _ :: _ => true end
  | VDict a => match h !! a with Some [] => false | _ => true end
  end.

(** [sep.join(parts)] *)
Definition py_join (sep : string) (parts : list string) : string :=
  String.concat sep parts.

(** [str(n)] for an integer *)
Definition str_int (n : Z) : string := pretty n.

(** ASCII lower case, the part of [str.lower] that can produce the
    extensions of the content-type table *)
Definition lower_ascii (c : ascii) : ascii :=
  let n := nat_of_ascii c in
  if ((65 <=? n) && (n <=? 90))%nat then ascii_of_nat (n + 32) else c.

Fixpoint lower (s : string) : string :=
  match s with
  | EmptyString => EmptyString
  | String c s' => String (lower_ascii c) (lower s')
  end.

(** ** Paths ([os.path], POSIX flavour) *)

(** Index of the last occurrence of [c] in [s], [str.rfind] *)
Fixpoint rfind_from (c : ascii) (s : string) (i : nat) (last : option nat) : option nat :=
  match s with
  | EmptyString => last
  | String c' s' =>
      rfind_from c s' (Datatypes.S i) (if Ascii.eqb c c' then Some i else last)
  end.
Definition rfind (c : ascii) (s : string) : option nat := rfind_from c s 0%nat None.

Definition substr_from (i : nat) (s : string) : string :=
  String.substring i (String.length s - i) s.

(** [os.path.basename(p)]: what follows the last slash *)
Definition basename (p : string) : string :=
  match rfind "/" p with
  | Some i => substr_from (Datatypes.S i) p
  | None => p
  end.

(** Is some character of [s] at a position in [[lo, hi)] not a dot? *)
Fixpoint has_non_dot (s : string) (i lo hi : nat) : bool :=
  match s with
  | EmptyString => false
  | String c s' =>
      ((lo <=? i)%nat && (i <? hi)%nat && negb (Ascii.eqb c "."))
      || has_non_dot s' (Datatypes.S i) lo hi
  end.

(** [os.path.splitext(p)[1]]: from the last dot of the last component, when
    that dot is not one of the component's leading dots *)
Definition splitext_ext (p : string) : string :=
  let filename_index := match rfind "/" p with Some i => Datatypes.S i | None => 0%nat end in
  match rfind "." p with
  | Some dot_index =>
      if (filename_index <=? dot_index)%nat && has_non_dot p 0 filename_index dot_index
      then substr_from dot_index p
      else ""
  | None => ""
  end.

(** ** The world: object store, file system, log of collaborator calls *)

Definition bytes := list Byte.byte.

(** A decoded audio clip; the program only ever asks for its length. *)
Record AudioSegment := { pcm : bytes; millis : Z }.

(** The dictionary returned by [getAudioMetadata]: three fixed keys *)
Record metadata := {
  audio_length : string;
  audio_file_size : string;
  audio_content_type : string
}.

(** What [generate_podcast] may hand back *)
Inductive gen_result : Type :=
| GStr (s : string)             (* a [str] *)
| GObj (audio_path : string)    (* an object with an [audio_path] attribute *)
| GOther.                       (* anything else, [None] included *)

Record gen_args := {
  g_urls : value;
  g_text : value;
  g_conversation_config : addr;
  g_tts_model : value;
  g_longform : bool
}.

Inductive event : Type :=
| EvGenerate (args : gen_args) (r : outcome gen_result)
| EvUploadFile (file_path : string) (audio_id : value) (r : outcome string)
| EvUpdateCompletion (podcast_id : value) (audio_url : string) (md : metadata)
                     (r : outcome bool)
| EvUpdateStatus (podcast_id : value) (status : string) (reason : exn)
                 (r : outcome bool)
| EvCreate (path : string)      (* a file came into being *)
| EvRemove (path : string).     (* [os.remove(path)] succeeded *)

Record world := {
  w_heap : heap;
  w_files : gmap string bytes;
  w_trace : list event          (* oldest first *)
}.

Definition lift {A} (m : M heap A) : M world A :=
  fun w => let (r, h) := m (w_heap w) in
           (r, {| w_heap := h; w_files := w_files w; w_trace := w_trace w |}).

Definition log (ev : event) : M world unit :=
  modify (fun w => {| w_heap := w_heap w; w_files := w_files w;
                      w_trace := w_trace w ++ [ev] |}).

Definition set_files (f : gmap string bytes -> gmap string bytes) : M world unit :=
  modify (fun w => {| w_heap := w_heap w; w_files := f (w_files w);
                      w_trace := w_trace w |}).

(** [os.path.exists(p)], [os.path.isfile(p)]: only regular files are modelled *)
Definition path_exists (p : string) : M world bool :=
  gets (fun w => bool_decide (is_Some (w_files w !! p))).

(** [open(p, 'rb').read()] *)
Definition read_file (p : string) : M world bytes :=
  let* w := gets id in
  match w_files w !! p with
  | Some b => ret b
  | None => raise FileNotFoundError
  end.

(** [os.remove(p)] *)
Definition os_remove (p : string) : M world unit :=
  let* w := gets id in
  match w_files w !! p with
  | Some _ => set_files (delete p) >> log (EvRemove p)
  | None => raise FileNotFoundError
  end.

(** ** The collaborators

    Everything the program calls and does not define: the environment, the
    YAML loader, the generation library, the audio codec, the temporary-file
    mechanism, the object store's and the status store's network clients. *)
Record env := {
  getenv : string -> option string;
  (** [open(config_path)] followed by [yaml.safe_load]: the loaded document,
      whose dictionaries are objects of the initial store *)
  yaml_safe_load : outcome value;
  float_of_int : Z -> outcome Z;
  float_of_str : string -> option Z;
  (** [str(v)] for a [v] that is not a string *)
  str_other : heap -> value -> string;
  (** [str(e)] *)
  str_exn : exn -> string;
  dict_update_from_seq : pydict -> value -> pydict * option exn;
  (** the generation library: its result and the files it writes *)
  generate_podcast : gen_args -> heap -> gmap string bytes ->
                     outcome gen_result * list (string * bytes);
  intro_path : string;        (* [os.path.join(os.path.dirname(__file__), "intro.wav")] *)
  from_wav : bytes -> outcome AudioSegment;
  from_file : string -> bytes -> outcome AudioSegment;
  audio_add : AudioSegment -> AudioSegment -> outcome AudioSegment;
  audio_export : AudioSegment -> string -> outcome bytes;
  (** [tempfile.NamedTemporaryFile(suffix=".mp3", delete=False, dir=TEMP_DIR)] *)
  named_temporary_file : gmap string bytes -> outcome string;
  s3_client : bool;           (* [self.client] is set *)
  s3_public_url : string;     (* [f"{self.public_url}"] *)
  upload_fileobj : bytes -> string -> option exn;
  supabase_client : bool;     (* [self.client] is set *)
  (** [self.client.table('podcasts').update(update_data).eq('id', id).execute()],
      answering whether [response.data] is non-empty *)
  execute_update : list (string * string) -> value -> outcome bool
}.

Section Service.
Variable E : env.

(** [str(v)], also what an f-string makes of [v] *)
Definition str_value (h : heap) (v : value) : string :=
  match v with
  | VStr s => s
  | _ => str_other E h v
  end.

(** ** Storage ([storage/ovh_storage.py], [storage/supabase_client.py]) *)

(** [S3Storage.upload_file] (ovh_storage.py, lines 79-112) *)
Definition upload_file (file_path : string) (audio_id : value) : M world string :=
  if negb (s3_client E) then
    raise (Raised "Exception" "S3 client not initialized. Missing environment variables: ...")
  else
    try_except
      (let* h := gets w_heap in
       let object_name :=
         String.append (str_value h audio_id)
                       (String.append "/" (basename file_path)) in
       let* f := read_file file_path in
       match upload_fileobj E f object_name with
       | Some e => raise e
       | None => ret (String.append (s3_public_url E) (String.append "/" object_name))
       end)
      (fun e => raise (Wrapped "Failed to upload to S3: " e)).

(** [SupabaseClient.update_podcast_completion] (supabase_client.py, lines 60-110) *)
Definition update_podcast_completion
    (podcast_id : value) (audio_url audio_length audio_content_type
     audio_file_size : string) : M world bool :=
  if negb (supabase_client E) then
    raise (Raised "Exception"
             "Supabase client not initialized. Missing environment variables: ...")
  else
    try_except
      (let update_data :=
         [("status", "completed"); ("audio_url", audio_url);
          ("audio_length", audio_length);
          ("audio_content_type", audio_content_type);
          ("audio_file_size", audio_file_size)] in
       let* data := of_outcome (execute_update E update_data podcast_id) in
       if data : bool then ret true else ret false)
      (fun e => raise (Wrapped "Failed to update podcast in Supabase: " e)).

(** [SupabaseClient.update_podcast_status] (supabase_client.py, lines 138-172) *)
Definition update_podcast_status
    (podcast_id : value) (status : string) (failed_reason : string) : M world bool :=
  if negb (supabase_client E) then
    raise (Raised "Exception" "Supabase client not initialized")
  else
    try_except
      (let update_data :=
         ("status", status) ::
         (if negb (String.eqb failed_reason "") && String.eqb status "failed"
          then [("failed_reason", failed_reason)] else []) in
       let* data := of_outcome (execute_update E update_data podcast_id) in
       if data : bool then ret true else ret false)
      (fun e => raise (Wrapped "Failed to update podcast status in Supabase: " e)).

(** ** Audio post-processing (fast_app.py) *)

(** [AudioSegment.from_file(path)]: the file is read and decoded *)
Definition audio_from_file (path : string) : M world AudioSegment :=
  let* content := read_file path in
  of_outcome (from_file E path content).

Definition content_type_map : list (string * string) :=
  [(".mp3", "audio/mpeg");
   (".wav", "audio/wav");
   (".m4a", "audio/mp4");
   (".aac", "audio/aac");
   (".ogg", "audio/ogg")].

(** [content_type_map.get(ext, default)] *)
Fixpoint table_get (ext : string) (table : list (string * string))
                   (default : string) : string :=
  match table with
  | [] => default
  | (k, v) :: table' => if String.eqb ext k then v else table_get ext table' default
  end.

(** [int(n / 1000)] for the integer [n = len(audio)]: the quotient is
    a double, [int] truncates it toward zero.  For every length below
    2^53 milliseconds the double's truncation is that of the exact
    quotient, which is what is computed here. *)
Definition int_of_truediv (n d : Z) : Z := Z.quot n d.

(** [getAudioMetadata] (lines 322-371) *)
Definition getAudioMetadata (audio_file_path : string) : M world metadata :=
  try_except
    (let* audio := audio_from_file audio_file_path in
     let* content := read_file audio_file_path in          (* os.path.getsize *)
     let file_size := str_int (Z.of_nat (List.length content)) in
     let audio_length := str_int (int_of_truediv (millis audio) 1000) in
     let file_extension := lower (splitext_ext audio_file_path) in
     let content_type := table_get file_extension content_type_map "audio/mpeg" in
     ret {| audio_length := audio_length;
            audio_file_size := file_size;
            audio_content_type := content_type |})
    (fun e =>
       ret {| audio_length := "";
              audio_file_size := "";
              audio_content_type := "audio/mpeg" |}).

(** [addIntroToAudio] (lines 373-417) *)
Definition addIntroToAudio (audio_file_path : string) : M world string :=
  let* intro_exists := path_exists (intro_path E) in
  if negb intro_exists then ret audio_file_path
  else
    try_except
      (let* intro_bytes := read_file (intro_path E) in
       let* intro := of_outcome (from_wav E intro_bytes) in
       let* podcast := audio_from_file audio_file_path in
       let* combined := of_outcome (audio_add E intro podcast) in
       let* files := gets w_files in
       let* temp_path := of_outcome (named_temporary_file E files) in
       set_files (insert temp_path []) >> log (EvCreate temp_path) >>
       let* encoded := of_outcome (audio_export E combined "mp3") in
       set_files (insert temp_path encoded) >>
       let* original_exists := path_exists audio_file_path in
       (if original_exists then os_remove audio_file_path else ret tt) >>
       ret temp_path)
      (fun e => ret audio_file_path).

(** ** The request handler (fast_app.py, lines 78-272) *)

(** [load_base_config] (lines 25-32) *)
Definition load_base_config : M heap value :=
  match yaml_safe_load E with
  | Ok v => ret v
  | Raise _ => let* a := new_dict [] in ret (VDict a)
  end.

(** [obj.get(k, {})] *)
Definition py_get_new (obj : value) (k : string) : M heap value :=
  match obj with
  | VDict _ => let* e := new_dict [] in py_get obj k (VDict e)
  | _ => raise AttributeError
  end.

(** [obj.get(key, {})] for a key that is itself a value: a list or a
    dictionary cannot be hashed, another key that is not a string is not
    among the keys. *)
Definition py_get_key_new (obj key : value) : M heap value :=
  match obj with
  | VDict _ =>
      let* e := new_dict [] in
      match key with
      | VStr k => py_get obj k (VDict e)
      | VList _ | VDict _ => raise TypeError
      | VNone | VBool _ | VInt _ | VFloat _ => ret (VDict e)
      end
  | _ => raise AttributeError
  end.

(** [float(v)] *)
Definition py_float (v : value) : M heap value :=
  match v with
  | VFloat bits => ret (VFloat bits)
  | VInt n => let* bits := of_outcome (float_of_int E n) in ret (VFloat bits)
  | VBool b => ret (VFloat (if b then 4607182418800017408 else 0))
  | VStr s => match float_of_str E s with
              | Some bits => ret (VFloat bits)
              | None => raise (Builtin "ValueError")
              end
  | VNone | VList _ | VDict _ => raise TypeError
  end.

(** [len(v)], as far as raising goes *)
Definition check_sized (v : value) : M heap unit :=
  match v with
  | VStr _ | VList _ | VDict _ => ret tt
  | VNone | VBool _ | VInt _ | VFloat _ => raise TypeError
  end.

Definition text_separator : string :=
  String "010" (String "010" ("---------" ++ String "010" (String "010" ""))).

(** The request body [data] is the JSON object the framework parsed for
    this one call.  The handler only reads it and hands it to nobody, so it
    is taken by value; the objects nested in it live in the store. *)

(** [data.get(k, default)] *)
Definition data_get (data : pydict) (k : string) (default : value) : value :=
  match dict_get k data with Some v => v | None => default end.

(** Lines 101-112: the text handed to the generator *)
Definition handle_text_input (data : pydict) : M heap value :=
  match dict_get "text" data with
  | None => ret VNone
  | Some (VList text_data) =>
      let* h := gets id in
      ret (VStr (py_join text_separator
                   (map (str_value h) (List.filter (truthy h) text_data))))
  | Some (VStr text_data) => ret (VStr text_data)
  | Some _ => raise (Raised "ValueError" "Text input must be a string or array of strings")
  end.

(** [data.get(k, base_config.get(k', default))] *)
Definition request_or_base (data : pydict) (base_config : value) (k k' : string)
                           (default : value) : M heap value :=
  let* fallback := py_get base_config k' default in
  ret (data_get data k fallback).

(** [voices.get(k, default_voices.get(k))] *)
Definition voice_or_default (voices default_voices : value) (k : string)
  : M heap value :=
  let* fallback := py_get default_voices k VNone in
  py_get voices k fallback.

(** Lines 86-160: everything up to the call of the generator *)
Definition prepare_request (data : pydict) : M heap gen_args :=
  let* base_config := load_base_config in
  (* tts_model, line 91 *)
  let* tts := py_get_new base_config "text_to_speech" in
  let* default_model := py_get tts "default_tts_model" (VStr "openai") in
  let tts_model := data_get data "tts_model" default_model in
  (* tts_base_config, line 92 *)
  let* tts := py_get_new base_config "text_to_speech" in
  let* tts_base_config := py_get_key_new tts tts_model in
  (* voices, lines 95-96 *)
  let* empty := new_dict [] in
  let voices := data_get data "voices" (VDict empty) in
  let* default_voices := py_get_new tts_base_config "default_voices" in
  (* the log line 99 evaluates both lookups *)
  let* _ := voice_or_default voices default_voices "question" in
  let* _ := voice_or_default voices default_voices "answer" in
  (* text, lines 101-112 *)
  let* text_input := handle_text_input data in
  (* urls, lines 115-117 *)
  let urls := data_get data "urls" (VList []) in
  let* h := gets id in
  (if truthy h urls then check_sized urls else ret tt) >>
  (* user_config, lines 129-148 *)
  let* creativity0 := request_or_base data base_config "creativity" "creativity"
                        (VFloat 4604480259023595110) in            (* 0.7 *)
  let* creativity := py_float creativity0 in
  let* conversation_style := request_or_base data base_config
                               "conversation_style" "conversation_style" (VList []) in
  let* roles_person1 := request_or_base data base_config
                          "roles_person1" "roles_person1" VNone in
  let* roles_person2 := request_or_base data base_config
                          "roles_person2" "roles_person2" VNone in
  let* dialogue_structure := request_or_base data base_config
                               "dialogue_structure" "dialogue_structure" (VList []) in
  let* podcast_name := request_or_base data base_config "name" "podcast_name" VNone in
  let* podcast_tagline := request_or_base data base_config
                            "tagline" "podcast_tagline" VNone in
  let* output_language := request_or_base data base_config
                            "output_language" "output_language" (VStr "English") in
  let* user_instructions := request_or_base data base_config
                              "user_instructions" "user_instructions" (VStr "") in
  let* engagement_techniques := request_or_base data base_config
                                  "engagement_techniques" "engagement_techniques"
                                  (VList []) in
  let* model := py_get tts_base_config "model" VNone in
  let* question := voice_or_default voices default_voices "question" in
  let* answer := voice_or_default voices default_voices "answer" in
  let* dv := new_dict [("question", question); ("answer", answer)] in
  let* tts_cfg := new_dict [("default_tts_model", tts_model); ("model", model);
                            ("default_voices", VDict dv)] in
  let* user_config := new_dict
    [("creativity", creativity);
     ("conversation_style", conversation_style);
     ("roles_person1", roles_person1);
     ("roles_person2", roles_person2);
     ("dialogue_structure", dialogue_structure);
     ("podcast_name", podcast_name);
     ("podcast_tagline", podcast_tagline);
     ("output_language", output_language);
     ("user_instructions", user_instructions);
     ("engagement_techniques", engagement_techniques);
     ("text_to_speech", VDict tts_cfg)] in
  (* line 151 *)
  let* conversation_config :=
    match base_config with
    | VDict b => merge_configs (dict_update_from_seq E) b user_config
    | _ => raise AttributeError
    end in
  (* line 159 *)
  let is_long_form := data_get data "is_long_form" (VBool false) in
  let* h := gets id in
  ret {| g_urls := urls; g_text := text_input;
         g_conversation_config := conversation_config;
         g_tts_model := tts_model; g_longform := truthy h is_long_form |}.

(** A call to a collaborator, entered in the log with its outcome *)
Definition observe {A} (m : M world A) (ev : outcome A -> event) : M world A :=
  fun w => let (r, w') := m w in
           (r, {| w_heap := w_heap w'; w_files := w_files w';
                  w_trace := w_trace w' ++ [ev r] |}).

(** Lines 154-160: the generation library runs, leaving its files behind *)
Definition call_generate (args : gen_args) : M world gen_result :=
  let* w := gets id in
  let (r, written) := generate_podcast E args (w_heap w) (w_files w) in
  for_each written (fun kv =>
    set_files (insert (fst kv) (snd kv)) >> log (EvCreate (fst kv))) >>
  log (EvGenerate args r) >>
  of_outcome r.

Inductive response : Type :=
| JSONResponse (status_code : Z) (content : list (string * string))
| Response (content : bytes) (media_type : string)
           (headers : list (string * string)).     (* status 200 *)

(** [data.get('podcast_id')] *)
Definition get_podcast_id (data : pydict) : value :=
  data_get data "podcast_id" VNone.

(** Lines 164-206 and again 208-250: the two branches of the source differ
    only in the expression that names the audio file, here [path]. *)
Definition deliver (data : pydict) (path : string) : M world response :=
  let podcast_id := get_podcast_id data in
  let* h := gets w_heap in
  if truthy h podcast_id then
    let* audio_with_intro := addIntroToAudio path in
    let* md := getAudioMetadata audio_with_intro in
    let* audio_url := observe (upload_file audio_with_intro podcast_id)
                              (EvUploadFile audio_with_intro podcast_id) in
    try_except
      (observe (update_podcast_completion podcast_id audio_url
                  (audio_length md) (audio_content_type md) (audio_file_size md))
               (EvUpdateCompletion podcast_id audio_url md) >> ret tt)
      (fun e => ret tt) >>
    os_remove audio_with_intro >>
    ret (JSONResponse 200 [("audio_url", audio_url)])
  else
    let* audio_data := read_file path in
    os_remove path >>
    ret (Response audio_data "audio/mpeg"
           [("Content-Type", "audio/mpeg");
            ("Content-Length", str_int (Z.of_nat (List.length audio_data)))]).

(** Lines 162-252 *)
Definition dispose (data : pydict) (result : gen_result) : M world response :=
  match result with
  | GStr s =>
      let* is_file := path_exists s in
      if is_file : bool then deliver data s
      else raise (HTTPException 500 "Invalid result format")
  | GObj audio_path => deliver data audio_path
  | GOther => raise (HTTPException 500 "Invalid result format")
  end.

(** The [try] block, lines 86-252 *)
Definition endpoint_try (data : pydict) : M world response :=
  let* args := lift (prepare_request data) in
  let* result := call_generate args in
  dispose data result.

(** The [except Exception as e] block, lines 254-272 *)
Definition endpoint_except (data : pydict) (e : exn) : M world response :=
  let podcast_id := get_podcast_id data in
  let* h := gets w_heap in
  (if truthy h podcast_id then
     try_except
       (observe (update_podcast_status podcast_id "failed" (str_exn E e))
                (EvUpdateStatus podcast_id "failed" e) >> ret tt)
       (fun supabase_error => ret tt)
   else ret tt) >>
  raise (HTTPExceptionOf 500 e).

(** [generate_podcast_endpoint] (lines 78-272) *)
Definition generate_podcast_endpoint (data : pydict) : M world response :=
  try_except (endpoint_try data) (endpoint_except data).

(** ** The access-token middleware (lines 64-76) *)

Record request := {
  url_path : string;
  (** the raw headers, names in lower case as the server hands them over *)
  headers : list (string * string);
  body : pydict                   (* the parsed JSON object *)
}.

(** [request.headers.get(name)]: first header of that name, whatever its case *)
Fixpoint headers_get (name : string) (hs : list (string * string)) : option string :=
  match hs with
  | [] => None
  | (k, v) :: hs' => if String.eqb k (lower name) then Some v else headers_get name hs'
  end.

Definition unauthorized : response :=
  JSONResponse 401 [("message", "Invalid or missing access token")].

(** [not token] *)
Definition falsy_token (token : option string) : bool :=
  match token with
  | None => true
  | Some t => String.eqb t ""
  end.

(** [token != secret], an [Optional[str]] against an [Optional[str]] *)
Definition token_differs (token secret : option string) : bool :=
  match token, secret with
  | Some t, Some s => negb (String.eqb t s)
  | None, None => false
  | _, _ => true
  end.

Definition verify_token (req : request) (call_next : request -> M world response)
  : M world response :=
  if String.eqb (url_path req) "/health" then call_next req
  else
    let token := headers_get "X-Podpod-Access-Token" (headers req) in
    if falsy_token token || token_differs token (getenv E "PODPOD_API_ACCESS_TOKEN")
    then ret unauthorized
    else call_next req.

(** The application: the middleware in front of the routes.  [/generate]
    is the handler above; the other routes are left open. *)
Definition app (other_routes : request -> M world response) (req : request)
  : M world response :=
  verify_token req (fun req =>
    if String.eqb (url_path req) "/generate"
    then generate_podcast_endpoint (body req)
    else other_routes req).

End Service.

(** * The storage classes and the health check

    The parts of [storage/ovh_storage.py], [storage/supabase_client.py] and
    [fast_app.py] that a [/generate] request does not go through. *)

(** What [head_bucket] answers *)
Inductive head_bucket_answer : Type :=
| HeadOk
| HeadClientError (code : string) (e : exn)  (* a [ClientError] [e], with
                                                [e.response['Error']['Code']] *)
| HeadError (e : exn).                       (* any other exception *)

(** The keyword arguments of [boto3.client('s3', ...)], as read from the
    environment *)
Record s3_client_args := {
  region_name : option string;
  endpoint_url : option string;
  aws_access_key_id : option string;
  aws_secret_access_key : option string
}.

(** What these parts call and do not define: the S3 and Supabase client
    libraries, and the host's directories. *)
Record outside := {
  boto3_client : s3_client_args -> option exn;
  (** [client.list_objects_v2(Bucket=..., Prefix=..., MaxKeys=...)]: the
      keys under ['Contents'], if the response has that entry *)
  list_objects_v2 : s3_client_args -> option string -> option string -> option Z ->
                    outcome (option (list string));
  head_bucket : s3_client_args -> option string -> head_bucket_answer;
  delete_objects : s3_client_args -> option string -> list string -> option exn;
  create_client : option string -> option string -> option exn;
  (** [table('podcasts').select('id').limit(1).execute()] *)
  select_probe : option exn;
  temp_dir : string;                          (* [TEMP_DIR] *)
  temp_dir_exists : bool;                     (* [os.path.exists(TEMP_DIR)] *)
  makedirs : option exn;                      (* [os.makedirs(TEMP_DIR, exist_ok=True)] *)
  open_for_writing : string -> option exn;    (* [open(path, "w")] *)
  sys_version : string;
  getcwd : outcome string
}.

(** [not value], for what [os.getenv] returns *)
Definition unset (value : option string) : bool :=
  match value with
  | None => true
  | Some s => String.eqb s ""
  end.

(** [[var for var, value in required_vars.items() if not value]] *)
Fixpoint missing_vars (required_vars : list (string * option string)) : list string :=
  match required_vars with
  | [] => []
  | (var, value) :: rest =>
      if unset value then var :: missing_vars rest else missing_vars rest
  end.

(** [os.path.join(a, b)] *)
Definition path_join (a b : string) : string :=
  match b with
  | String "/" _ => b
  | _ =>
      if String.eqb a "" then b
      else match rfind "/" a with
           | Some i => if Nat.eqb (Datatypes.S i) (String.length a)
                       then String.append a b
                       else String.append a (String.append "/" b)
           | None => String.append a (String.append "/" b)
           end
  end.

(** The bytes that writing an ASCII text leaves in a file *)
Definition bytes_of_text (s : string) : bytes := list_byte_of_string s.

Record S3Storage := {
  s3_self_client : option s3_client_args;
  s3_self_bucket : option string;
  s3_self_public_url : option string
}.

Record SupabaseClient := {
  sb_self_client : option (option string * option string);   (* url and key *)
  sb_self_url : option string;
  sb_self_anon_key : option string;
  sb_self_service_key : option string
}.

(** The dictionary that [healthcheck] returns *)
Record health_report := {
  hr_status : string;
  hr_temp_dir : string;
  hr_temp_dir_writable : bool;
  hr_s3_status : string;
  hr_supabase_status : string;
  hr_python_version : string;
  hr_working_directory : string;
  hr_environment_variables : list (string * bool)
}.

Section Operations.
Variable E : env.
Variable O : outside.

(** The dictionary [required_vars] of [S3Storage], from the environment as
    it is now and the bucket and public URL that the object holds *)
Definition s3_required_vars (bucket public_url : option string)
  : list (string * option string) :=
  [("S3_PODCAST_REGION", getenv E "S3_PODCAST_REGION");
   ("S3_PODCAST_ENDPOINT", getenv E "S3_PODCAST_ENDPOINT");
   ("S3_PODCAST_ACCESS_KEY", getenv E "S3_PODCAST_ACCESS_KEY");
   ("S3_PODCAST_SECRET_KEY", getenv E "S3_PODCAST_SECRET_KEY");
   ("S3_PODCAST_BUCKET", bucket);
   ("S3_PODCAST_PUBLIC_URL", public_url)].

(** [S3Storage.__init__] (ovh_storage.py, lines 15-61) *)
Definition S3Storage_init : S3Storage :=
  let bucket := getenv E "S3_PODCAST_BUCKET" in
  let public_url := getenv E "S3_PODCAST_PUBLIC_URL" in
  let without_client :=
    {| s3_self_client := None; s3_self_bucket := bucket;
       s3_self_public_url := public_url |} in
  match missing_vars (s3_required_vars bucket public_url) with
  | _ :: _ => without_client
  | [] =>
      let client :=
        {| region_name := getenv E "S3_PODCAST_REGION";
           endpoint_url := getenv E "S3_PODCAST_ENDPOINT";
           aws_access_key_id := getenv E "S3_PODCAST_ACCESS_KEY";
           aws_secret_access_key := getenv E "S3_PODCAST_SECRET_KEY" |} in
      match boto3_client O client with
      | Some e => without_client
      | None =>
          match list_objects_v2 O client bucket None (Some 1) with
          | Ok _ =>
              {| s3_self_client := Some client; s3_self_bucket := bucket;
                 s3_self_public_url := public_url |}
          | Raise e => without_client
          end
      end
  end.

(** [S3Storage.check_connection] (ovh_storage.py, lines 63-77) *)
Definition s3_check_connection (self : S3Storage) : M world (bool * string) :=
  match s3_self_client self with
  | None => ret (false, "not_configured")
  | Some client =>
      match head_bucket O client (s3_self_bucket self) with
      | HeadOk => ret (true, "connected")
      | HeadClientError error_code e =>
          if String.eqb error_code "404" then ret (false, "bucket_not_found")
          else ret (false, String.append "error: " (str_exn E e))
      | HeadError e => ret (false, String.append "error: " (str_exn E e))
      end
  end.

(** The exception of [upload_file] and [delete_file] without a client *)
Definition s3_not_initialized (self : S3Storage) : exn :=
  Raised "Exception"
    (String.append "S3 client not initialized. Missing environment variables: "
       (py_join ", "
          (missing_vars (s3_required_vars (s3_self_bucket self)
                           (s3_self_public_url self))))).

(** [S3Storage.delete_file] (ovh_storage.py, lines 114-146) *)
Definition s3_delete_file (self : S3Storage) (audio_id : string) : M world bool :=
  match s3_self_client self with
  | None => raise (s3_not_initialized self)
  | Some client =>
      try_except
        (let* response :=
           of_outcome (list_objects_v2 O client (s3_self_bucket self)
                         (Some (String.append audio_id "/")) None) in
         match response with
         | Some objects_to_delete =>
             match objects_to_delete with
             | [] => ret true
             | _ :: _ =>
                 match delete_objects O client (s3_self_bucket self)
                         objects_to_delete with
                 | Some e => raise e
                 | None => ret true
                 end
             end
         | None => ret true
         end)
        (fun e => ret false)
  end.

(** [SupabaseClient.__init__] (supabase_client.py, lines 13-45) *)
Definition SupabaseClient_init : SupabaseClient :=
  let url := getenv E "SUPABASE_URL" in
  let anon_key := getenv E "SUPABASE_ANON_KEY" in
  let service_key := getenv E "SUPABASE_KEY" in
  let with_client c :=
    {| sb_self_client := c; sb_self_url := url; sb_self_anon_key := anon_key;
       sb_self_service_key := service_key |} in
  match missing_vars [("SUPABASE_URL", url); ("SUPABASE_KEY", service_key)] with
  | _ :: _ => with_client None
  | [] =>
      match create_client O url service_key with
      | Some e => with_client None
      | None => with_client (Some (url, service_key))
      end
  end.

(** [SupabaseClient.check_connection] (supabase_client.py, lines 47-58) *)
Definition supabase_check_connection (self : SupabaseClient) : M world (bool * string) :=
  match sb_self_client self with
  | None => ret (false, "not_configured")
  | Some _ =>
      match select_probe O with
      | None => ret (true, "connected")
      | Some e => ret (false, String.append "error: " (str_exn E e))
      end
  end.

(** [with open(path, "w") as f: f.write(text)]; a file that could be opened
    is taken to accept the text *)
Definition write_text (path text : string) : M world unit :=
  match open_for_writing O path with
  | Some e => raise e
  | None => set_files (insert path (bytes_of_text text)) >> log (EvCreate path)
  end.

(** The variables whose presence [healthcheck] reports *)
Definition reported_variables : list string :=
  ["OPENAI_API_KEY"; "GEMINI_API_KEY"; "S3_PODCAST_REGION"; "S3_PODCAST_ENDPOINT";
   "S3_PODCAST_ACCESS_KEY"; "S3_PODCAST_SECRET_KEY"; "S3_PODCAST_BUCKET";
   "S3_PODCAST_PUBLIC_URL"; "SUPABASE_URL"; "SUPABASE_ANON_KEY"; "SUPABASE_KEY"].

(** [healthcheck] (fast_app.py, lines 274-320) *)
Definition healthcheck (s3_storage : S3Storage) (supabase : SupabaseClient)
  : M world health_report :=
  try_except
    ((if negb (temp_dir_exists O)
      then match makedirs O with Some e => raise e | None => ret tt end
      else ret tt) >>
     let test_file := path_join (temp_dir O) "health_check.txt" in
     write_text test_file "health check" >>
     os_remove test_file >>
     let* s3 := s3_check_connection s3_storage in
     let* sb := supabase_check_connection supabase in
     let* working_directory := of_outcome (getcwd O) in
     ret {| hr_status := "healthy";
            hr_temp_dir := temp_dir O;
            hr_temp_dir_writable := true;
            hr_s3_status := snd s3;
            hr_supabase_status := snd sb;
            hr_python_version := sys_version O;
            hr_working_directory := working_directory;
            hr_environment_variables :=
              map (fun name => (name, negb (unset (getenv E name))))
                  reported_variables |})
    (fun e => raise (HTTPExceptionOf 500 e)).

End Operations.

(** * Vocabulary of the statements *)

(** What a run from [w] to [w'] added to the log *)
Definition events_since (w w' : world) : list event :=
  drop (List.length (w_trace w)) (w_trace w').

Definition is_generate (ev : event) : bool :=
  match ev with EvGenerate _ _ => true | _ => false end.

(** The paths of the successful [os.remove] calls, in order *)
Fixpoint removed (evs : list event) : list string :=
  match evs with
  | [] => []
  | EvRemove p :: evs' => p :: removed evs'
  | _ :: evs' => removed evs'
  end.

(** The paths of the files that came into being, in order *)
Fixpoint created (evs : list event) : list string :=
  match evs with
  | [] => []
  | EvCreate p :: evs' => p :: created evs'
  | _ :: evs' => created evs'
  end.

(** Every run of [m] only adds to the log, and only events that satisfy [P]. *)
Definition emits {A} (P : event -> Prop) (m : M world A) : Prop :=
  forall w r w', m w = (r, w') ->
    exists evs, w_trace w' = w_trace w ++ evs /\ Forall P evs.

(** Events of the file system *)
Definition is_file_event (ev : event) : Prop :=
  match ev with EvCreate _ | EvRemove _ => True | _ => False end.

(** The text that a list of strings makes: the non-empty ones, joined *)
Definition joined_text (texts : list string) : string :=
  py_join text_separator (List.filter (fun s => negb (String.eqb s "")) texts).

(** The handler's outcome, from that of its [try] block: a response goes
    through, an exception is raised again as a 500 *)
Definition as_response_outcome (rt : outcome response) : outcome response :=
  match rt with
  | Ok resp => Ok resp
  | Raise e => Raise (HTTPExceptionOf 500 e)
  end.

(** What every event that a run of the handler on [data] logs says about
    the run's outcome [r] *)
Definition log_invariant (E : env) (data : pydict) (r : outcome response)
                         (ev : event) : Prop :=
  match ev with
  | EvCreate _ | EvRemove _ => True
  | EvGenerate args _ =>
      exists h h', prepare_request E data h = (Ok args, h')
  | EvUploadFile _ pid ru =>
      pid = get_podcast_id data /\
      match ru with
      | Ok url => r = Ok (JSONResponse 200 [("audio_url", url)])
      | Raise e => r = Raise (HTTPExceptionOf 500 e)
      end
  | EvUpdateCompletion _ url _ _ =>
      r = Ok (JSONResponse 200 [("audio_url", url)])
  | EvUpdateStatus pid status e _ =>
      pid = get_podcast_id data /\ status = "failed" /\
      r = Raise (HTTPExceptionOf 500 e)
  end.

(** [base] after [base.update(over)]: the items of [over] laid over it *)
Definition overlay (base over : pydict) : pydict :=
  fold_left (fun d kv => dict_set (fst kv) (snd kv) d) over base.

(** [merged] after the loop of [merge_configs] over the items of [user] *)
Definition override_top_level (merged user : pydict) : pydict :=
  fold_left
    (fun d kv =>
       if negb (String.eqb (fst kv) "text_to_speech") then
         match snd kv with
         | VNone => d
         | v => dict_set (fst kv) v d
         end
       else d)
    user merged.

(** Kinds of events *)
Definition is_status (ev : event) : bool :=
  match ev with EvUpdateStatus _ _ _ _ => true | _ => false end.

(** Calls that write to the object store or to the status store *)
Definition is_store_write (ev : event) : bool :=
  match ev with
  | EvUploadFile _ _ _ | EvUpdateCompletion _ _ _ _ | EvUpdateStatus _ _ _ _ => true
  | _ => false
  end.

(** Values on which [len] raises *)
Definition unsized (v : value) : bool :=
  match v with
  | VNone | VBool _ | VInt _ | VFloat _ => true
  | VStr _ | VList _ | VDict _ => false
  end.

(** ** A sample deployment, for running the model

    No base configuration can be loaded, the generator writes one file and
    names it, the codec decodes everything; whether the access token is
    set, and whether the object store and the status store answer, is
    chosen by the parameters. *)
Definition sample_env (secret : option string) (upload_ok db_ok : bool) : env := {|
  getenv := fun name =>
    if String.eqb name "PODPOD_API_ACCESS_TOKEN" then secret else None;
  yaml_safe_load := Raise FileNotFoundError;
  float_of_int := fun n => Ok 0;
  float_of_str := fun _ => None;
  str_other := fun _ _ => "?";
  str_exn := fun _ => "error";
  dict_update_from_seq := fun d _ => (d, Some TypeError);
  generate_podcast := fun _ _ _ =>
    (Ok (GStr "/tmp/podcast.mp3"),
     [("/tmp/podcast.mp3", ["I"; "D"; "3"]%byte)]);
  intro_path := "/app/intro.wav";
  from_wav := fun b => Ok {| pcm := b; millis := 1500 |};
  from_file := fun _ b => Ok {| pcm := b; millis := 61999 |};
  audio_add := fun a b => Ok {| pcm := pcm a ++ pcm b; millis := millis a + millis b |};
  audio_export := fun a _ => Ok (pcm a);
  named_temporary_file := fun _ => Ok "/app/temp_audio/tmpab12.mp3";
  s3_client := true;
  s3_public_url := "https://cdn.example";
  upload_fileobj := fun _ _ =>
    if upload_ok then None else Some (Raised "ClientError" "upload refused");
  supabase_client := true;
  execute_update := fun _ _ =>
    if db_ok then Ok true else Raise (Raised "APIError" "store unreachable")
|}.

(** A world with the intro clip in place and nothing else *)
Definition sample_world : world := {|
  w_heap := [];
  w_files := {[ "/app/intro.wav" := ["R"; "I"; "F"; "F"]%byte ]};
  w_trace := []
|}.

Definition sample_data (podcast_id : option string) : pydict :=
  match podcast_id with Some p => [("podcast_id", VStr p)] | None => [] end
  ++ [("text", VList [VStr "a"; VStr ""; VStr "b"])].

Definition sample_request (token : option string) : request := {|
  url_path := "/generate";
  headers := match token with
             | Some t => [("x-podpod-access-token", t)]
             | None => []
             end;
  body := sample_data None
|}.

(** Stores for [merge_configs]: an empty base against an override with a
    [text_to_speech] block, and a base and an override that both have one *)
Definition empty_base_heap : heap :=
  [ [];
    [("text_to_speech", VDict 2%nat); ("creativity", VInt 1)];
    [("model", VStr "tts-1")] ].

Definition both_tts_heap : heap :=
  [ [("text_to_speech", VDict 1%nat)];
    [("model", VStr "base-model")];
    [("text_to_speech", VDict 3%nat)];
    [("model", VStr "override-model")] ].

(** A base whose [text_to_speech] is null, as an empty YAML entry loads,
    against an override with a block *)
Definition null_tts_heap : heap :=
  [ [("text_to_speech", VNone); ("creativity", VInt 0)];
    [("text_to_speech", VDict 2%nat)];
    [("model", VStr "tts-1")] ].

(** The decoding and encoding steps that [addIntroToAudio] asks of the
    codec for the file at [path], one after the other: decode the intro,
    decode the podcast, concatenate, encode as mp3. *)
Definition intro_codec (E : env) (path : string) (w : world) : outcome bytes :=
  match w_files w !! intro_path E with
  | None => Raise FileNotFoundError
  | Some intro_bytes =>
      match from_wav E intro_bytes with
      | Raise e => Raise e
      | Ok intro =>
          match w_files w !! path with
          | None => Raise FileNotFoundError
          | Some podcast_bytes =>
              match from_file E path podcast_bytes with
              | Raise e => Raise e
              | Ok podcast =>
                  match audio_add E intro podcast with
                  | Raise e => Raise e
                  | Ok combined => audio_export E combined "mp3"
                  end
              end
          end
      end
  end.

(** The variables that [S3Storage] requires *)
Definition s3_variables : list string :=
  ["S3_PODCAST_REGION"; "S3_PODCAST_ENDPOINT"; "S3_PODCAST_ACCESS_KEY";
   "S3_PODCAST_SECRET_KEY"; "S3_PODCAST_BUCKET"; "S3_PODCAST_PUBLIC_URL"].

(** The file that [healthcheck] writes and removes *)
Definition health_file (O : outside) : string :=
  path_join (temp_dir O) "health_check.txt".

(** ** More sample deployments *)

Fixpoint lookup_var (name : string) (vars : list (string * string)) : option string :=
  match vars with
  | [] => None
  | (n, v) :: rest => if String.eqb n name then Some v else lookup_var name rest
  end.

(** The sample deployment with the environment [vars], a generator that
    answers [generated], and a client for the object store or none *)
Definition sample_env_with (vars : list (string * string))
    (generated : outcome gen_result * list (string * bytes)) (store : bool) : env :=
  let E := sample_env None true true in
  {| getenv := fun name => lookup_var name vars;
     yaml_safe_load := yaml_safe_load E;
     float_of_int := float_of_int E;
     float_of_str := float_of_str E;
     str_other := str_other E;
     str_exn := str_exn E;
     dict_update_from_seq := dict_update_from_seq E;
     generate_podcast := fun _ _ _ => generated;
     intro_path := intro_path E;
     from_wav := from_wav E;
     from_file := from_file E;
     audio_add := audio_add E;
     audio_export := audio_export E;
     named_temporary_file := named_temporary_file E;
     s3_client := store;
     s3_public_url := s3_public_url E;
     upload_fileobj := upload_fileobj E;
     supabase_client := supabase_client E;
     execute_update := execute_update E |}.

Definition sample_vars : list (string * string) :=
  [("S3_PODCAST_REGION", "gra"); ("S3_PODCAST_ENDPOINT", "https://s3.example");
   ("S3_PODCAST_ACCESS_KEY", "ak"); ("S3_PODCAST_SECRET_KEY", "sk");
   ("S3_PODCAST_BUCKET", "podcasts");
   ("S3_PODCAST_PUBLIC_URL", "https://cdn.example");
   ("SUPABASE_URL", "https://db.example"); ("SUPABASE_KEY", "service")].

(** Hosts that accept both clients; what the bucket, the listing, the
    table and the temporary directory answer is chosen by the parameters. *)
Definition sample_outside (bucket : head_bucket_answer)
    (listing : outcome (option (list string))) (table : option exn)
    (writable : bool) : outside := {|
  boto3_client := fun _ => None;
  list_objects_v2 := fun _ _ _ _ => listing;
  head_bucket := fun _ _ => bucket;
  delete_objects := fun _ _ _ => None;
  create_client := fun _ _ => None;
  select_probe := table;
  temp_dir := "/app/temp_audio";
  temp_dir_exists := true;
  makedirs := None;
  open_for_writing := fun _ =>
    if writable then None
    else Some (Raised "OSError" "Read-only file system");
  sys_version := "3.11.4";
  getcwd := Ok "/app"
|}.

Definition sample_request_data (urls : value) : pydict :=
  [("podcast_id", VStr "p1"); ("urls", urls)].

(** What the sample generator answers *)
Definition sample_generated : outcome gen_result * list (string * bytes) :=
  (Ok (GStr "/tmp/podcast.mp3"), [("/tmp/podcast.mp3", ["I"; "D"; "3"]%byte)]).

(** The sample world after the generator has written its file *)
Definition sample_world_generated : world := {|
  w_heap := [];
  w_files := <["/tmp/podcast.mp3" := ["I"; "D"; "3"]%byte]> (w_files sample_world);
  w_trace := []
|}.

(** A request to the sample world *)
Definition sample_run (E : env) (data : pydict) : outcome response * world :=
  generate_podcast_endpoint E data sample_world.

(** The sample deployment with a codec that cannot encode *)
Definition sample_env_no_encoder : env :=
  let E := sample_env None true true in
  {| getenv := getenv E;
     yaml_safe_load := yaml_safe_load E;
     float_of_int := float_of_int E;
     float_of_str := float_of_str E;
     str_other := str_other E;
     str_exn := str_exn E;
     dict_update_from_seq := dict_update_from_seq E;
     generate_podcast := generate_podcast E;
     intro_path := intro_path E;
     from_wav := from_wav E;
     from_file := from_file E;
     audio_add := audio_add E;
     audio_export := fun _ _ => Raise (Raised "CouldntEncodeError" "encoder missing");
     named_temporary_file := named_temporary_file E;
     s3_client := s3_client E;
     s3_public_url := s3_public_url E;
     upload_fileobj := upload_fileobj E;
     supabase_client := supabase_client E;
     execute_update := execute_update E |}.

(** * Properties *)

(** ** The access-token middleware *)

Lemma token_differs_Some_neq t secret :
  Some t <> secret -> token_differs (Some t) secret = true.
Proof.
  intros Hne. destruct secret as [s|]; simpl; [|reflexivity].
  destruct (String.eqb_spec t s) as [->|]; [congruence|reflexivity].
Qed.

Lemma verify_token_unauthorized E req call_next w :
  url_path req <> "/health" ->
  headers_get "X-Podpod-Access-Token" (headers req) = None \/
  headers_get "X-Podpod-Access-Token" (headers req)
    <> getenv E "PODPOD_API_ACCESS_TOKEN" ->
  verify_token E req call_next w = (Ok unauthorized, w).
Proof.
  intros Hpath Htok. unfold verify_token.
  destruct (String.eqb_spec (url_path req) "/health") as [|_]; [contradiction|].
  destruct (headers_get _ (headers req)) as [t|] eqn:Ht.
  - destruct Htok as [|Hne]; [discriminate|].
    rewrite (token_differs_Some_neq _ _ Hne), orb_true_r. reflexivity.
  - reflexivity.
Qed.

(** C4.  A request to a path other than [/health] whose
    [X-Podpod-Access-Token] header is missing, or differs from the
    configured secret, is answered 401 with the fixed message, whatever
    stands behind the middleware; the world is left as it was, so in
    particular the application logs no call of the generator.  A request
    to [/health] is handed on unchecked. *)
Theorem auth_gate E (req : request) :
  (url_path req <> "/health" ->
   headers_get "X-Podpod-Access-Token" (headers req) = None \/
   headers_get "X-Podpod-Access-Token" (headers req)
     <> getenv E "PODPOD_API_ACCESS_TOKEN" ->
   (forall call_next w, verify_token E req call_next w = (Ok unauthorized, w)) /\
   (forall other_routes w,
      fst (app E other_routes req w)
        = Ok (JSONResponse 401 [("message", "Invalid or missing access token")]) /\
      List.filter is_generate (w_trace (snd (app E other_routes req w)))
        = List.filter is_generate (w_trace w))) /\
  (url_path req = "/health" ->
   forall call_next, verify_token E req call_next = call_next req).
Proof.
  split.
  - intros Hpath Htok. split.
    + intros. by apply verify_token_unauthorized.
    + intros. unfold app. by rewrite verify_token_unauthorized.
  - intros Hpath call_next. unfold verify_token. by rewrite Hpath.
Qed.

(** C10.  With [PODPOD_API_ACCESS_TOKEN] unset, every request to a path
    other than [/health] is answered 401, with or without a token and
    whatever the token is. *)
Theorem auth_fails_closed E (req : request) call_next w :
  getenv E "PODPOD_API_ACCESS_TOKEN" = None ->
  url_path req <> "/health" ->
  verify_token E req call_next w = (Ok unauthorized, w).
Proof.
  intros Hsecret Hpath. apply verify_token_unauthorized; [done|].
  rewrite Hsecret.
  destruct (headers_get _ (headers req)); [right; discriminate | by left].
Qed.

(** ** Audio post-processing *)

Lemma events_since_app w w' evs :
  w_trace w' = w_trace w ++ evs -> events_since w w' = evs.
Proof. intros H. unfold events_since. rewrite H. by rewrite drop_app_length. Qed.

Lemma events_since_refl w : events_since w w = [].
Proof. apply events_since_app. by rewrite app_nil_r. Qed.

(** C7.  [addIntroToAudio] always returns a path.  When the intro file is
    absent it returns its argument and leaves the world as it was.  When a
    decoding or encoding step fails it returns its argument too, removes
    no file, and every file that existed still exists. *)
Theorem addIntroToAudio_never_raises E (path : string) (w : world) :
  exists p w',
    addIntroToAudio E path w = (Ok p, w') /\
    (w_files w !! intro_path E = None -> p = path /\ w' = w) /\
    ((exists e, intro_codec E path w = Raise e) ->
     p = path /\
     removed (events_since w w') = [] /\
     (forall q, is_Some (w_files w !! q) -> is_Some (w_files w' !! q))).
Proof.
  unfold addIntroToAudio, intro_codec, audio_from_file, read_file, path_exists,
    os_remove, set_files, log, bind, try_except, gets, modify, of_outcome, ret,
    raise.
  destruct (w_files w !! intro_path E) as [ib|] eqn:Hintro.
  2:{ rewrite bool_decide_false by (intros [? ?]; discriminate). cbn.
      eexists _, _. split; [reflexivity|]. split; [done|].
      intros _. rewrite events_since_refl. done. }
  rewrite bool_decide_true by eauto. cbn -[bool_decide]. rewrite Hintro.
  assert (Hweaken : forall P : Prop,
            (exists p w',
               (Ok path, w) = (Ok p, w') /\
               (Some ib = None -> p = path /\ w' = w) /\
               (P -> p = path /\ removed (events_since w w') = [] /\
                  forall q, is_Some (w_files w !! q) -> is_Some (w_files w' !! q)))).
  { intros P. exists path, w. split; [reflexivity|]. split; [discriminate|].
    intros _. by rewrite events_since_refl. }
  destruct (from_wav E ib) as [intro|e1]; [|apply Hweaken].
  destruct (w_files w !! path) as [pb|] eqn:Hpath; [|apply Hweaken].
  destruct (from_file E path pb) as [podcast|e2]; [|apply Hweaken].
  destruct (audio_add E intro podcast) as [combined|e3]; [|apply Hweaken].
  destruct (named_temporary_file E (w_files w)) as [tmp|e4]; [|apply Hweaken].
  destruct (audio_export E combined "mp3") as [encoded|e5].
  - assert (Hex : is_Some (<[tmp:=encoded]> (<[tmp:=[]]> (w_files w)) !! path)).
    { rewrite !lookup_insert_is_Some. destruct (decide (tmp = path)); eauto 6. }
    rewrite bool_decide_true by done. destruct Hex as [x Hx].
    cbn. rewrite Hx. eexists _, _. split; [reflexivity|].
    split; [discriminate|]. intros [e He]. discriminate.
  - eexists _, _. split; [reflexivity|]. split; [discriminate|].
    intros _. split; [done|]. split.
    + erewrite events_since_app; [|reflexivity]. reflexivity.
    + intros q Hq. cbn. rewrite lookup_insert_is_Some.
      destruct (decide (tmp = q)); eauto.
Qed.

Lemma table_get_content_type (ext : string) :
  let ct := table_get ext content_type_map "audio/mpeg" in
  (ext = ".mp3" -> ct = "audio/mpeg") /\
  (ext = ".wav" -> ct = "audio/wav") /\
  (ext = ".m4a" -> ct = "audio/mp4") /\
  (ext = ".aac" -> ct = "audio/aac") /\
  (ext = ".ogg" -> ct = "audio/ogg") /\
  (~ In ext [".mp3"; ".wav"; ".m4a"; ".aac"; ".ogg"] -> ct = "audio/mpeg").
Proof.
  cbn zeta. repeat split; try (intros ->; reflexivity).
  intros Hnot. unfold content_type_map, table_get.
  repeat match goal with
         | |- context [String.eqb ext ?k] =>
             destruct (String.eqb_spec ext k) as [->|_];
             [exfalso; apply Hnot; cbn; tauto|]
         end.
  reflexivity.
Qed.

(** C8.  [getAudioMetadata] always returns a record and leaves the world
    as it was.  When the file can be read and decoded, the record holds
    the whole seconds of the duration and the size in bytes, both in
    decimal, and the content type that the fixed table gives for the
    lower-cased extension ([audio/mpeg] for any other extension); when it
    cannot, the record holds two empty strings and [audio/mpeg]. *)
Theorem getAudioMetadata_never_raises E (path : string) (w : world) :
  exists md,
    getAudioMetadata E path w = (Ok md, w) /\
    match audio_from_file E path w with
    | (Ok audio, _) =>
        (exists content,
           w_files w !! path = Some content /\
           audio_file_size md = str_int (Z.of_nat (List.length content))) /\
        (0 <= millis audio ->
         exists seconds,
           1000 * seconds <= millis audio < 1000 * seconds + 1000 /\
           audio_length md = str_int seconds) /\
        (let ext := lower (splitext_ext path) in
         let ct := audio_content_type md in
         (ext = ".mp3" -> ct = "audio/mpeg") /\
         (ext = ".wav" -> ct = "audio/wav") /\
         (ext = ".m4a" -> ct = "audio/mp4") /\
         (ext = ".aac" -> ct = "audio/aac") /\
         (ext = ".ogg" -> ct = "audio/ogg") /\
         (~ In ext [".mp3"; ".wav"; ".m4a"; ".aac"; ".ogg"] -> ct = "audio/mpeg"))
    | (Raise _, _) =>
        md = {| audio_length := ""; audio_file_size := "";
                audio_content_type := "audio/mpeg" |}
    end.
Proof.
  unfold getAudioMetadata, audio_from_file, read_file, bind, try_except, gets,
    of_outcome, ret, raise. cbn.
  destruct (w_files w !! path) as [content|] eqn:Hpath; cbn;
    [|eexists; split; reflexivity].
  destruct (from_file E path content) as [audio|e]; cbn;
    [|eexists; split; reflexivity].
  rewrite Hpath. cbn. eexists. split; [reflexivity|]. cbn.
  split; [eauto|]. split; [|apply table_get_content_type].
  intros Hpos. exists (millis audio `quot` 1000). split; [|reflexivity].
  unfold int_of_truediv. rewrite Z.quot_div_nonneg by lia.
  pose proof (Z.mul_div_le (millis audio) 1000 ltac:(lia)).
  pose proof (Z.mul_succ_div_gt (millis audio) 1000 ltac:(lia)). lia.
Qed.

(** ** What the monad's combinators add to the log *)

Section Emits.
Context (P : event -> Prop).

Lemma emits_ret {A} (a : A) : emits P (ret a).
Proof. intros w r w' [= <- <-]. exists []. by rewrite app_nil_r. Qed.

Lemma emits_raise {A} e : emits P (raise (A := A) e).
Proof. intros w r w' [= <- <-]. exists []. by rewrite app_nil_r. Qed.

Lemma emits_gets {A} (f : world -> A) : emits P (gets f).
Proof. intros w r w' [= <- <-]. exists []. by rewrite app_nil_r. Qed.

Lemma emits_of_outcome {A} (o : outcome A) : emits P (of_outcome o).
Proof. intros w r w' [= <- <-]. exists []. by rewrite app_nil_r. Qed.

Lemma emits_lift {A} (m : M heap A) : emits P (lift m).
Proof.
  intros w r w'. unfold lift. destruct (m (w_heap w)) as [r0 h].
  intros [= <- <-]. exists []. by rewrite app_nil_r.
Qed.

Lemma emits_set_files f : emits P (set_files f).
Proof. intros w r w' [= <- <-]. exists []. by rewrite app_nil_r. Qed.

Lemma emits_log ev : P ev -> emits P (log ev).
Proof. intros Hev w r w' [= <- <-]. exists [ev]. split; [done|]. by constructor. Qed.

Lemma emits_bind_run {A B} (m : M world A) (k : A -> M world B) :
  emits P m ->
  (forall a w w1, m w = (Ok a, w1) -> emits P (k a)) ->
  emits P (bind m k).
Proof.
  intros Hm Hk w r w'. unfold bind. destruct (m w) as [[a|e] w1] eqn:Hrun.
  - intros Hka. destruct (Hm _ _ _ Hrun) as (evs1 & E1 & H1).
    destruct (Hk _ _ _ Hrun _ _ _ Hka) as (evs2 & E2 & H2).
    exists (evs1 ++ evs2). rewrite E2, E1, app_assoc. split; [done|].
    by apply Forall_app.
  - intros [= <- <-]. eauto.
Qed.

Lemma emits_bind {A B} (m : M world A) (k : A -> M world B) :
  emits P m -> (forall a, emits P (k a)) -> emits P (bind m k).
Proof. intros Hm Hk. apply emits_bind_run; auto. Qed.

Lemma emits_try {A} (m : M world A) (h : exn -> M world A) :
  emits P m -> (forall e, emits P (h e)) -> emits P (try_except m h).
Proof.
  intros Hm Hh w r w'. unfold try_except. destruct (m w) as [[a|e] w1] eqn:Hrun.
  - intros [= <- <-]. eauto.
  - intros Hhe. destruct (Hm _ _ _ Hrun) as (evs1 & E1 & H1).
    destruct (Hh _ _ _ _ Hhe) as (evs2 & E2 & H2).
    exists (evs1 ++ evs2). rewrite E2, E1, app_assoc. split; [done|].
    by apply Forall_app.
Qed.

Lemma emits_observe {A} (m : M world A) (ev : outcome A -> event) :
  emits P m -> (forall r, P (ev r)) -> emits P (observe m ev).
Proof.
  intros Hm Hev w r w'. unfold observe. destruct (m w) as [r0 w1] eqn:Hrun.
  intros [= <- <-]. destruct (Hm _ _ _ Hrun) as (evs1 & E1 & H1).
  exists (evs1 ++ [ev r0]). cbn. rewrite E1, app_assoc. split; [done|].
  apply Forall_app. split; [done|]. by constructor.
Qed.

Lemma emits_for_each {A} (xs : list A) (body : A -> M world unit) :
  (forall x, emits P (body x)) -> emits P (for_each xs body).
Proof.
  intros Hbody. induction xs as [|x xs IH]; cbn.
  - apply emits_ret.
  - apply emits_bind; auto.
Qed.
End Emits.

Ltac emits_step :=
  first
    [ apply emits_ret | apply emits_raise | apply emits_gets
    | apply emits_of_outcome | apply emits_lift | apply emits_set_files
    | apply emits_bind; [|intros ?]
    | apply emits_try; [|intros ?]
    | apply emits_observe; [|intros ?]
    | apply emits_for_each; intros ?
    | apply emits_log
    | match goal with
      | |- emits _ (match ?x with _ => _ end) => destruct x
      end ].

Ltac emits_auto := repeat emits_step; cbn; auto.

Ltac run_step := cbn -[read_file os_remove bool_decide].

(** ** The collaborators' wrappers leave the world alone *)

Lemma read_file_run p w :
  read_file p w = match w_files w !! p with
                  | Some b => (Ok b, w)
                  | None => (Raise FileNotFoundError, w)
                  end.
Proof.
  unfold read_file, bind, gets, ret, raise. cbn.
  by destruct (w_files w !! p).
Qed.

Lemma os_remove_run p w :
  os_remove p w =
    match w_files w !! p with
    | Some _ => (Ok tt, {| w_heap := w_heap w; w_files := delete p (w_files w);
                           w_trace := w_trace w ++ [EvRemove p] |})
    | None => (Raise FileNotFoundError, w)
    end.
Proof.
  unfold os_remove, bind, gets, ret, raise, set_files, log, modify. cbn.
  by destruct (w_files w !! p).
Qed.

Lemma upload_file_run E p audio_id w r w' :
  upload_file E p audio_id w = (r, w') ->
  w' = w /\ (forall url, r = Ok url -> is_Some (w_files w !! p)).
Proof.
  unfold upload_file. destruct (s3_client E); cbn.
  - unfold try_except, bind, gets, ret, raise. cbn -[read_file].
    rewrite read_file_run.
    destruct (w_files w !! p) as [b|]; cbn.
    + destruct (upload_fileobj E b _); intros [= <- <-]; eauto.
    + intros [= <- <-]. split; [done|]. discriminate.
  - intros [= <- <-]. split; [done|]. discriminate.
Qed.

Lemma update_podcast_completion_run E pid url len ct size w r w' :
  update_podcast_completion E pid url len ct size w = (r, w') -> w' = w.
Proof.
  unfold update_podcast_completion. destruct (supabase_client E); cbn.
  - unfold try_except, bind, of_outcome, ret, raise.
    destruct (execute_update E _ pid) as [[|]|e]; by intros [= <- <-].
  - by intros [= <- <-].
Qed.

Lemma update_podcast_status_run E pid status reason w r w' :
  update_podcast_status E pid status reason w = (r, w') -> w' = w.
Proof.
  unfold update_podcast_status. destruct (supabase_client E); cbn.
  - unfold try_except, bind, of_outcome, ret, raise.
    destruct (execute_update E _ pid) as [[|]|e]; by intros [= <- <-].
  - by intros [= <- <-].
Qed.

Lemma getAudioMetadata_run E path w :
  exists md, getAudioMetadata E path w = (Ok md, w).
Proof.
  unfold getAudioMetadata, audio_from_file, bind, try_except, of_outcome, ret.
  rewrite read_file_run.
  destruct (w_files w !! path) as [content|] eqn:Hpath; [|eauto].
  destruct (from_file E path content) as [audio|e]; [|eauto].
  rewrite read_file_run, Hpath. eauto.
Qed.

Lemma addIntroToAudio_emits E path : emits is_file_event (addIntroToAudio E path).
Proof.
  unfold addIntroToAudio, audio_from_file, path_exists, read_file, os_remove.
  emits_auto.
Qed.

Lemma addIntroToAudio_run E path w :
  exists p w', addIntroToAudio E path w = (Ok p, w') /\ w_heap w' = w_heap w.
Proof.
  unfold addIntroToAudio, audio_from_file, path_exists, bind, try_except,
    gets, of_outcome, ret, set_files, log, modify.
  destruct (bool_decide _); run_step; [|eauto].
  rewrite read_file_run.
  destruct (w_files w !! intro_path E) as [ib|]; run_step; [|eauto].
  destruct (from_wav E ib) as [intro|?]; run_step; [|eauto].
  rewrite read_file_run.
  destruct (w_files w !! path) as [pb|] eqn:Hpath; run_step; [|eauto].
  destruct (from_file E path pb) as [podcast|?]; run_step; [|eauto].
  destruct (audio_add E intro podcast) as [combined|?]; run_step; [|eauto].
  destruct (named_temporary_file E (w_files w)) as [tmp|?]; run_step; [|eauto].
  destruct (audio_export E combined "mp3") as [encoded|?]; run_step; [|eauto].
  destruct (bool_decide _) eqn:Hex; run_step; [|eauto].
  apply bool_decide_eq_true in Hex. rewrite os_remove_run. cbn.
  destruct Hex as [x ->]. eauto.
Qed.

(** ** The disposition of a result, step by step *)

Lemma deliver_run E data path w :
  let podcast_id := get_podcast_id data in
  if truthy (w_heap w) podcast_id then
    exists audio_with_intro w1 md,
      addIntroToAudio E path w = (Ok audio_with_intro, w1) /\
      w_heap w1 = w_heap w /\
      getAudioMetadata E audio_with_intro w1 = (Ok md, w1) /\
      match upload_file E audio_with_intro podcast_id w1 with
      | (Raise e, _) =>
          deliver E data path w =
            (Raise e,
             {| w_heap := w_heap w1; w_files := w_files w1;
                w_trace := w_trace w1
                  ++ [EvUploadFile audio_with_intro podcast_id (Raise e)] |})
      | (Ok audio_url, _) =>
          exists rc,
            deliver E data path w =
              (Ok (JSONResponse 200 [("audio_url", audio_url)]),
               {| w_heap := w_heap w1;
                  w_files := delete audio_with_intro (w_files w1);
                  w_trace := w_trace w1
                    ++ [EvUploadFile audio_with_intro podcast_id (Ok audio_url);
                        EvUpdateCompletion podcast_id audio_url md rc;
                        EvRemove audio_with_intro] |})
      end
  else
    deliver E data path w =
      match w_files w !! path with
      | Some audio_data =>
          (Ok (Response audio_data "audio/mpeg"
                 [("Content-Type", "audio/mpeg");
                  ("Content-Length", str_int (Z.of_nat (List.length audio_data)))]),
           {| w_heap := w_heap w; w_files := delete path (w_files w);
              w_trace := w_trace w ++ [EvRemove path] |})
      | None => (Raise FileNotFoundError, w)
      end.
Proof.
  cbn zeta.
  assert (Hstart : forall (k : heap -> M world response),
            bind (gets w_heap) k w = k (w_heap w) w) by reflexivity.
  destruct (truthy (w_heap w) (get_podcast_id data)) eqn:Hpid.
  - destruct (addIntroToAudio_run E path w) as (awi & w1 & Hintro & Hheap).
    destruct (getAudioMetadata_run E awi w1) as (md & Hmd).
    exists awi, w1, md. split; [done|]. split; [done|]. split; [done|].
    unfold deliver. rewrite Hstart, Hpid.
    unfold bind, try_except, observe, ret. rewrite Hintro, Hmd.
    destruct (upload_file E awi _ w1) as [[url|e] w2] eqn:Hup;
      apply upload_file_run in Hup as [-> Hfile]; [|reflexivity].
    destruct (update_podcast_completion E _ url _ _ _ _) as [rc w3] eqn:Hdb.
    apply update_podcast_completion_run in Hdb as ->.
    exists rc. destruct (Hfile url eq_refl) as [x Hx].
    destruct rc; cbn -[os_remove]; rewrite os_remove_run; cbn; rewrite Hx;
      cbn; by rewrite <- !app_assoc.
  - unfold deliver. rewrite Hstart, Hpid.
    unfold bind, ret. rewrite read_file_run.
    destruct (w_files w !! path) as [audio_data|] eqn:Hpath; [|reflexivity].
    rewrite os_remove_run, Hpath. reflexivity.
Qed.

Lemma lift_run {A} (m : M heap A) w r w' :
  lift m w = (r, w') ->
  m (w_heap w) = (r, w_heap w') /\ w_files w' = w_files w /\ w_trace w' = w_trace w.
Proof.
  unfold lift. destruct (m (w_heap w)) as [r0 h]. by intros [= <- <-].
Qed.

Lemma for_each_written (written : list (string * bytes)) w :
  for_each written (fun kv =>
    set_files (insert (fst kv) (snd kv)) >> log (EvCreate (fst kv))) w
  = (Ok tt,
     {| w_heap := w_heap w;
        w_files := fold_left (fun f kv => <[fst kv := snd kv]> f) written (w_files w);
        w_trace := w_trace w ++ map (fun kv => EvCreate (fst kv)) written |}).
Proof.
  revert w. induction written as [|kv written IH]; intros w; cbn.
  - rewrite app_nil_r. by destruct w.
  - unfold bind at 1. cbn. rewrite IH. cbn. by rewrite <- app_assoc.
Qed.

Lemma call_generate_run E args w :
  let g := generate_podcast E args (w_heap w) (w_files w) in
  call_generate E args w =
    (fst g,
     {| w_heap := w_heap w;
        w_files := fold_left (fun f kv => <[fst kv := snd kv]> f) (snd g) (w_files w);
        w_trace := w_trace w ++ map (fun kv => EvCreate (fst kv)) (snd g)
                     ++ [EvGenerate args (fst g)] |}).
Proof.
  cbn zeta. unfold call_generate, bind at 1, gets at 1. cbn.
  destruct (generate_podcast E args (w_heap w) (w_files w)) as [rg written].
  unfold bind at 1. rewrite for_each_written. cbn.
  rewrite <- app_assoc. by destruct rg.
Qed.

Lemma endpoint_except_run E data e w :
  exists evs,
    endpoint_except E data e w =
      (Raise (HTTPExceptionOf 500 e),
       {| w_heap := w_heap w; w_files := w_files w; w_trace := w_trace w ++ evs |}) /\
    (evs = [] \/
     exists rc, evs = [EvUpdateStatus (get_podcast_id data) "failed" e rc]).
Proof.
  unfold endpoint_except, bind at 1, gets at 1.
  destruct (truthy (w_heap w) (get_podcast_id data)).
  - unfold bind, try_except, observe, ret, raise.
    destruct (update_podcast_status E _ "failed" _ w) as [rc w1] eqn:Hdb.
    apply update_podcast_status_run in Hdb as ->.
    exists [EvUpdateStatus (get_podcast_id data) "failed" e rc].
    split; [by destruct rc | eauto].
  - exists []. split; [|by left]. cbn. rewrite app_nil_r. by destruct w.
Qed.

Lemma endpoint_try_run E data w rt wt :
  endpoint_try E data w = (rt, wt) ->
  (exists e, rt = Raise e /\ w_files wt = w_files w /\ w_trace wt = w_trace w) \/
  (exists args w1,
     lift (prepare_request E data) w = (Ok args, w1) /\
     match call_generate E args w1 with
     | (Raise e, w2) => rt = Raise e /\ wt = w2
     | (Ok result, w2) => dispose E data result w2 = (rt, wt)
     end).
Proof.
  unfold endpoint_try, bind.
  destruct (lift (prepare_request E data) w) as [[args|e] w1] eqn:Hprep.
  - intros Hrest. right. exists args, w1. split; [done|].
    destruct (call_generate E args w1) as [[result|e] w2]; [done|].
    by injection Hrest as <- <-.
  - intros [= <- <-]. left. apply lift_run in Hprep as (_ & ? & ?). eauto.
Qed.

Lemma endpoint_run E data w r w' :
  generate_podcast_endpoint E data w = (r, w') ->
  exists rt wt,
    endpoint_try E data w = (rt, wt) /\
    match rt with
    | Ok resp => r = Ok resp /\ w' = wt
    | Raise e =>
        r = Raise (HTTPExceptionOf 500 e) /\
        w_heap w' = w_heap wt /\ w_files w' = w_files wt /\
        (w_trace w' = w_trace wt \/
         exists rc, w_trace w' = w_trace wt
                      ++ [EvUpdateStatus (get_podcast_id data) "failed" e rc])
    end.
Proof.
  unfold generate_podcast_endpoint, try_except.
  destruct (endpoint_try E data w) as [[resp|e] wt] eqn:Htry.
  - intros [= <- <-]. exists (Ok resp), wt. auto.
  - destruct (endpoint_except_run E data e wt) as (evs & -> & Hevs).
    intros [= <- <-]. exists (Raise e), wt. split; [done|]. cbn.
    repeat split. destruct Hevs as [->|[rc ->]]; [left; apply app_nil_r|eauto].
Qed.

Lemma dispose_ok E data result w resp w' :
  dispose E data result w = (Ok resp, w') ->
  exists path,
    (result = GStr path \/ result = GObj path) /\
    deliver E data path w = (Ok resp, w').
Proof.
  destruct result as [s|p|]; cbn; [| eauto | discriminate].
  unfold bind, path_exists, gets. destruct (bool_decide _); [eauto|discriminate].
Qed.

Lemma addIntroToAudio_trace E path w p w1 :
  addIntroToAudio E path w = (Ok p, w1) ->
  exists evs, w_trace w1 = w_trace w ++ evs /\ Forall is_file_event evs.
Proof. apply addIntroToAudio_emits. Qed.

(** The events of a disposition, and what they say about its outcome *)
Lemma deliver_trace E data path w r w' :
  deliver E data path w = (r, w') ->
  w_heap w' = w_heap w /\
  exists evs,
    w_trace w' = w_trace w ++ evs /\
    Forall (fun ev =>
      match ev with
      | EvCreate _ | EvRemove _ => True
      | EvUploadFile _ pid ru =>
          pid = get_podcast_id data /\
          truthy (w_heap w) pid = true /\
          match ru with
          | Ok url => r = Ok (JSONResponse 200 [("audio_url", url)])
          | Raise e => r = Raise e
          end
      | EvUpdateCompletion _ url _ _ =>
          r = Ok (JSONResponse 200 [("audio_url", url)])
      | _ => False
      end) evs.
Proof.
  intros Hrun. pose proof (deliver_run E data path w) as H. cbn zeta in H.
  destruct (truthy (w_heap w) (get_podcast_id data)) eqn:Hpid.
  - destruct H as (awi & w1 & md & Hintro & Hheap & _ & Hup).
    destruct (addIntroToAudio_trace _ _ _ _ _ Hintro) as (evs & Hevs & Hfile).
    destruct (upload_file E awi _ w1) as [[url|e] w2].
    + destruct Hup as [rc Hup]. rewrite Hup in Hrun. injection Hrun as <- <-.
      cbn. split; [done|]. eexists. rewrite Hevs, <- app_assoc.
      split; [reflexivity|]. apply Forall_app. split.
      * eapply Forall_impl; [exact Hfile|]. by intros [].
      * repeat (constructor; try done).
    + rewrite Hup in Hrun. injection Hrun as <- <-.
      cbn. split; [done|]. eexists. rewrite Hevs, <- app_assoc.
      split; [reflexivity|]. apply Forall_app. split.
      * eapply Forall_impl; [exact Hfile|]. by intros [].
      * repeat (constructor; try done).
  - rewrite H in Hrun. destruct (w_files w !! path) as [audio_data|].
    + injection Hrun as <- <-. cbn. split; [done|]. eexists.
      split; [reflexivity|]. repeat constructor.
    + injection Hrun as <- <-. split; [done|]. exists []. rewrite app_nil_r.
      split; [done|]. constructor.
Qed.

(** ** The log of a whole request *)

Lemma dispose_log E data result w rt wt :
  dispose E data result w = (rt, wt) ->
  w_heap wt = w_heap w /\
  exists evs,
    w_trace wt = w_trace w ++ evs /\
    Forall (log_invariant E data (as_response_outcome rt)) evs.
Proof.
  assert (Hnone : forall e, (Raise e, w) = (rt, wt) ->
            w_heap wt = w_heap w /\
            exists evs, w_trace wt = w_trace w ++ evs /\
              Forall (log_invariant E data (as_response_outcome rt)) evs).
  { intros e [= <- <-]. split; [done|]. exists []. rewrite app_nil_r.
    split; [done|constructor]. }
  assert (Hdeliver : forall path, deliver E data path w = (rt, wt) ->
            w_heap wt = w_heap w /\
            exists evs, w_trace wt = w_trace w ++ evs /\
              Forall (log_invariant E data (as_response_outcome rt)) evs).
  { intros path (Hheap & evs & Htr & Hevs)%deliver_trace. split; [done|].
    exists evs. split; [done|]. eapply Forall_impl; [exact Hevs|].
    intros [| ? ? [url|e] | | | |]; cbn; try done.
    - by intros (-> & _ & ->).
    - by intros (-> & _ & ->).
    - by intros ->. }
  destruct result as [s|p|]; cbn; [|apply Hdeliver|apply Hnone].
  unfold bind, path_exists, gets. destruct (bool_decide _); [apply Hdeliver|].
  apply Hnone.
Qed.

Lemma Forall_created (P : event -> Prop) (written : list (string * bytes)) :
  (forall p, P (EvCreate p)) ->
  Forall P (map (fun kv => EvCreate (fst kv)) written).
Proof. intros HP. induction written; constructor; auto. Qed.

Lemma endpoint_log E data w r w' :
  generate_podcast_endpoint E data w = (r, w') ->
  exists evs,
    w_trace w' = w_trace w ++ evs /\ Forall (log_invariant E data r) evs.
Proof.
  intros Hrun. apply endpoint_run in Hrun as (rt & wt & Htry & Hr).
  assert (Htry_log : exists evs,
            w_trace wt = w_trace w ++ evs /\
            Forall (log_invariant E data (as_response_outcome rt)) evs).
  { apply endpoint_try_run in Htry as [(e & -> & _ & Htr)|(args & w1 & Hprep & Hgen)].
    { exists []. rewrite app_nil_r. split; [done|constructor]. }
    apply lift_run in Hprep as (Hprep & _ & Htr1).
    pose proof (call_generate_run E args w1) as Hcall. cbn zeta in Hcall.
    rewrite Hcall in Hgen. clear Hcall.
    set (g := generate_podcast E args (w_heap w1) (w_files w1)) in *.
    assert (Hgen_evs : Forall (log_invariant E data (as_response_outcome rt))
                         (map (fun kv => EvCreate (fst kv)) (snd g)
                            ++ [EvGenerate args (fst g)])).
    { apply Forall_app. split.
      - apply Forall_created. by intros p.
      - repeat constructor. cbn. eauto. }
    destruct (fst g) as [result|e] eqn:Hg.
    - apply dispose_log in Hgen as (_ & evs & Htr & Hevs).
      cbn in Htr. eexists. rewrite Htr, Htr1, <- !app_assoc.
      split; [reflexivity|]. rewrite app_assoc. by apply Forall_app.
    - destruct Hgen as [-> ->]. cbn. eexists. rewrite Htr1.
      split; [reflexivity|]. done. }
  destruct Htry_log as (evs & Htr & Hevs). destruct rt as [resp|e].
  - destruct Hr as [-> ->]. eauto.
  - destruct Hr as (-> & _ & _ & [Htr'|[rc Htr']]).
    + exists evs. split; [congruence|done].
    + exists (evs ++ [EvUpdateStatus (get_podcast_id data) "failed" e rc]).
      rewrite Htr', Htr, <- app_assoc. split; [done|].
      apply Forall_app. split; [done|]. repeat constructor.
Qed.

(** C5.  Whenever the completion update of the status store raises during
    a request, the request is still answered 200 with the URL that was
    being recorded. *)
Theorem completion_failure_is_swallowed
    E (data : pydict) (w w' : world) (r : outcome response)
    (podcast_id : value) (audio_url : string) (md : metadata) (e : exn) :
  generate_podcast_endpoint E data w = (r, w') ->
  In (EvUpdateCompletion podcast_id audio_url md (Raise e)) (events_since w w') ->
  r = Ok (JSONResponse 200 [("audio_url", audio_url)]).
Proof.
  intros (evs & Htr & Hevs)%endpoint_log Hin.
  rewrite (events_since_app _ _ _ Htr) in Hin.
  rewrite Forall_forall in Hevs.
  apply list_elem_of_In in Hin. exact (Hevs _ Hin).
Qed.

Lemma endpoint_ok E data w resp w' :
  generate_podcast_endpoint E data w = (Ok resp, w') ->
  exists args w1 result w2 path,
    lift (prepare_request E data) w = (Ok args, w1) /\
    call_generate E args w1 = (Ok result, w2) /\
    (result = GStr path \/ result = GObj path) /\
    deliver E data path w2 = (Ok resp, w').
Proof.
  intros (rt & wt & Htry & Hr)%endpoint_run.
  destruct rt as [resp'|e]; [|by destruct Hr].
  destruct Hr as [[= <-] ->].
  apply endpoint_try_run in Htry as [(e & [=] & _)|(args & w1 & Hprep & Hgen)].
  destruct (call_generate E args w1) as [[result|e] w2] eqn:Hcall;
    [|by destruct Hgen].
  apply dispose_ok in Hgen as (path & Hresult & Hdeliver).
  by exists args, w1, result, w2, path.
Qed.

(** C3, as the code has it.  A request that is answered 200 is answered by
    [{"audio_url": url}] when its [podcast_id] is true for Python (neither
    absent nor null, false, zero or empty), and otherwise by the bytes of
    the file the generator named, sent as [audio/mpeg] with their number
    as [Content-Length]. *)
Theorem disposition_by_podcast_id E (data : pydict) (w w' : world) (resp : response) :
  generate_podcast_endpoint E data w = (Ok resp, w') ->
  (truthy (w_heap w') (get_podcast_id data) = true ->
   exists audio_url, resp = JSONResponse 200 [("audio_url", audio_url)]) /\
  (truthy (w_heap w') (get_podcast_id data) = false ->
   exists audio_data,
     resp = Response audio_data "audio/mpeg"
              [("Content-Type", "audio/mpeg");
               ("Content-Length", str_int (Z.of_nat (List.length audio_data)))] /\
     exists args w1 result w2 path,
       lift (prepare_request E data) w = (Ok args, w1) /\
       call_generate E args w1 = (Ok result, w2) /\
       (result = GStr path \/ result = GObj path) /\
       w_files w2 !! path = Some audio_data) /\
  (dict_get "podcast_id" data = None ->
   truthy (w_heap w') (get_podcast_id data) = false).
Proof.
  intros (args & w1 & result & w2 & path & Hprep & Hcall & Hresult & Hdeliver)%endpoint_ok.
  pose proof (deliver_trace _ _ _ _ _ _ Hdeliver) as [Hheap _].
  pose proof (deliver_run E data path w2) as Hrun. cbn zeta in Hrun.
  rewrite Hheap. split; [|split].
  - intros Hpid. rewrite Hpid in Hrun.
    destruct Hrun as (awi & w3 & md & _ & _ & _ & Hup).
    destruct (upload_file E awi _ w3) as [[url|e] w4].
    + destruct Hup as [rc Hup]. rewrite Hup in Hdeliver.
      injection Hdeliver as <- _. eauto.
    + rewrite Hup in Hdeliver. discriminate.
  - intros Hpid. rewrite Hpid in Hrun. rewrite Hrun in Hdeliver.
    destruct (w_files w2 !! path) as [audio_data|] eqn:Hfile; [|discriminate].
    injection Hdeliver as <- _. exists audio_data. split; [done|].
    by exists args, w1, result, w2, path.
  - intros Hnone. unfold get_podcast_id, data_get. by rewrite Hnone.
Qed.

(** ** The text handed to the generator *)

Lemma bind_Ok_inv {S A B} (m : M S A) (k : A -> M S B) s b s' :
  bind m k s = (Ok b, s') ->
  exists a s1, m s = (Ok a, s1) /\ k a s1 = (Ok b, s').
Proof.
  unfold bind. destruct (m s) as [[a|e] s1]; [eauto|discriminate].
Qed.

Ltac bind_inv H :=
  let a := fresh "a" in
  let s := fresh "h" in
  let Hm := fresh "Hm" in
  cbn zeta in H;
  apply bind_Ok_inv in H as (a & s & Hm & H).

Lemma handle_text_input_pure E data h r h' :
  handle_text_input E data h = (r, h') -> h' = h.
Proof.
  unfold handle_text_input.
  destruct (dict_get "text" data) as [[| | | | | |]|]; cbn; by intros [= _ <-].
Qed.

Lemma prepare_request_text E data h args h' :
  prepare_request E data h = (Ok args, h') ->
  exists h1, handle_text_input E data h1 = (Ok (g_text args), h1).
Proof.
  intros H. unfold prepare_request in H.
  repeat bind_inv H. injection H as <- _. cbn.
  match goal with
  | Htext : handle_text_input E data ?h1 = (Ok _, _) |- _ =>
      exists h1; by rewrite (handle_text_input_pure _ _ _ _ _ Htext) in Htext
  end.
Qed.

Lemma filter_truthy_strings h (texts : list string) :
  List.filter (truthy h) (map VStr texts)
  = map VStr (List.filter (fun s => negb (String.eqb s "")) texts).
Proof.
  induction texts as [|s texts IH]; [done|]. cbn.
  destruct (negb (String.eqb s "")); cbn; by rewrite IH.
Qed.

Lemma str_value_strings E h (texts : list string) :
  map (str_value E h) (map VStr texts) = texts.
Proof. induction texts as [|s texts IH]; [done|]. cbn. by rewrite IH. Qed.

Lemma handle_text_input_strings E data (texts : list string) h :
  dict_get "text" data = Some (VList (map VStr texts)) ->
  handle_text_input E data h = (Ok (VStr (joined_text texts)), h).
Proof.
  intros Htext. unfold handle_text_input. rewrite Htext.
  unfold bind, gets, ret. cbn.
  by rewrite filter_truthy_strings, str_value_strings.
Qed.

(** C6.  In every run of the handler: when [text] is a list of strings,
    the generator, if called, is given the non-empty ones joined by the
    separator; when it is a string, the generator is given that string;
    when it is neither, reading it raises the [ValueError] of the source,
    the generator is not called and the request fails with a 500. *)
Theorem text_input_joined E (data : pydict) (w w' : world) (r : outcome response) :
  generate_podcast_endpoint E data w = (r, w') ->
  (forall texts : list string,
     dict_get "text" data = Some (VList (map VStr texts)) ->
     let joined :=
       VStr (py_join (String "010" (String "010" ("---------" ++
                        String "010" (String "010" ""))))
               (List.filter (fun s => negb (String.eqb s "")) texts)) in
     (forall h, handle_text_input E data h = (Ok joined, h)) /\
     (forall args g, In (EvGenerate args g) (events_since w w') ->
        g_text args = joined)) /\
  (forall s : string,
     dict_get "text" data = Some (VStr s) ->
     (forall h, handle_text_input E data h = (Ok (VStr s), h)) /\
     (forall args g, In (EvGenerate args g) (events_since w w') ->
        g_text args = VStr s)) /\
  (forall v : value,
     dict_get "text" data = Some v ->
     (forall vs, v <> VList vs) -> (forall s, v <> VStr s) ->
     (forall h, handle_text_input E data h
                = (Raise (Raised "ValueError"
                            "Text input must be a string or array of strings"), h)) /\
     (forall args g, ~ In (EvGenerate args g) (events_since w w')) /\
     exists e, r = Raise (HTTPExceptionOf 500 e)).
Proof.
  intros Hrun.
  assert (Hgen : forall args g, In (EvGenerate args g) (events_since w w') ->
            exists h1, handle_text_input E data h1 = (Ok (g_text args), h1)).
  { intros args g Hin.
    destruct (endpoint_log _ _ _ _ _ Hrun) as (evs & Htr & Hevs).
    rewrite (events_since_app _ _ _ Htr) in Hin.
    rewrite Forall_forall in Hevs. apply list_elem_of_In in Hin.
    destruct (Hevs _ Hin) as (h & h' & Hprep).
    by apply prepare_request_text in Hprep. }
  split; [|split].
  - intros texts Htext joined. split.
    + intros h. by apply handle_text_input_strings.
    + intros args g [h1 Hh1]%Hgen.
      rewrite (handle_text_input_strings _ _ _ _ Htext) in Hh1.
      by injection Hh1 as <-.
  - intros s Htext.
    assert (Hs : forall h, handle_text_input E data h = (Ok (VStr s), h)).
    { intros h. unfold handle_text_input. by rewrite Htext. }
    split; [exact Hs|]. intros args g [h1 Hh1]%Hgen.
    rewrite Hs in Hh1. by injection Hh1 as <-.
  - intros v Htext Hlist Hstr.
    assert (Hraise : forall h, handle_text_input E data h
              = (Raise (Raised "ValueError"
                          "Text input must be a string or array of strings"), h)).
    { intros h. unfold handle_text_input. rewrite Htext.
      destruct v; try reflexivity; [by destruct (Hstr s)|by destruct (Hlist vs)]. }
    split; [exact Hraise|]. split.
    + intros args g [h1 Hh1]%Hgen. by rewrite Hraise in Hh1.
    + apply endpoint_run in Hrun as (rt & wt & Htry & Hr).
      destruct rt as [resp|e]; [|destruct Hr; eauto].
      apply endpoint_try_run in Htry as [(e & [=] & _)|(args & w1 & Hprep & _)].
      apply lift_run in Hprep as (Hprep & _).
      apply prepare_request_text in Hprep as [h1 Hh1]. by rewrite Hraise in Hh1.
Qed.

(** ** Runs of the sample deployment *)

Lemma auth_fails_closed_witness :
  verify_token (sample_env None true true) (sample_request (Some "guess"))
    (fun req => generate_podcast_endpoint (sample_env None true true) (body req))
    sample_world
  = (Ok unauthorized, sample_world).
Proof.
  apply (auth_fails_closed (sample_env None true true)
           (sample_request (Some "guess"))).
  - reflexivity.
  - discriminate.
Defined.

Lemma completion_failure_is_swallowed_witness :
  fst (generate_podcast_endpoint (sample_env None true false)
         (sample_data (Some "p1")) sample_world)
  = Ok (JSONResponse 200
          [("audio_url", "https://cdn.example/p1/tmpab12.mp3")]).
Proof.
  apply (completion_failure_is_swallowed (sample_env None true false)
           (sample_data (Some "p1")) sample_world
           (snd (generate_podcast_endpoint (sample_env None true false)
                   (sample_data (Some "p1")) sample_world))
           _ (VStr "p1") "https://cdn.example/p1/tmpab12.mp3"
           {| audio_length := "61"; audio_file_size := "7";
              audio_content_type := "audio/mpeg" |}
           (Wrapped "Failed to update podcast in Supabase: "
              (Raised "APIError" "store unreachable"))).
  - apply surjective_pairing.
  - vm_compute. tauto.
Defined.

Lemma disposition_by_podcast_id_witness :
  (exists audio_url,
     JSONResponse 200 [("audio_url", "https://cdn.example/p1/tmpab12.mp3")]
     = JSONResponse 200 [("audio_url", audio_url)]) /\
  (exists audio_data,
     Response ["I"; "D"; "3"]%byte "audio/mpeg"
       [("Content-Type", "audio/mpeg"); ("Content-Length", "3")]
     = Response audio_data "audio/mpeg"
         [("Content-Type", "audio/mpeg");
          ("Content-Length", str_int (Z.of_nat (List.length audio_data)))]).
Proof.
  split.
  - apply (disposition_by_podcast_id (sample_env None true true)
             (sample_data (Some "p1")) sample_world
             (snd (generate_podcast_endpoint (sample_env None true true)
                     (sample_data (Some "p1")) sample_world))).
    + vm_compute. reflexivity.
    + reflexivity.
  - destruct (disposition_by_podcast_id (sample_env None true true)
                (sample_data None) sample_world
                (snd (generate_podcast_endpoint (sample_env None true true)
                        (sample_data None) sample_world))
                (Response ["I"; "D"; "3"]%byte "audio/mpeg"
                   [("Content-Type", "audio/mpeg"); ("Content-Length", "3")]))
      as (_ & Hraw & _).
    + vm_compute. reflexivity.
    + destruct (Hraw eq_refl) as (audio_data & Hresp & _). eauto.
Defined.

Lemma text_input_joined_witness :
  exists args g,
    In (EvGenerate args g)
       (events_since sample_world
          (snd (generate_podcast_endpoint (sample_env None true true)
                  (sample_data None) sample_world))) /\
    g_text args
    = VStr (String "a" (String "010" (String "010" ("---------" ++
              String "010" (String "010" "b"))))).
Proof.
  destruct (text_input_joined (sample_env None true true) (sample_data None)
              sample_world
              (snd (generate_podcast_endpoint (sample_env None true true)
                      (sample_data None) sample_world))
              (fst (generate_podcast_endpoint (sample_env None true true)
                      (sample_data None) sample_world)))
    as (Hlist & _).
  - symmetry. apply surjective_pairing.
  - exists {| g_urls := VList [];
              g_text := VStr (joined_text ["a"; ""; "b"]);
              g_conversation_config := 9%nat;
              g_tts_model := VStr "openai";
              g_longform := false |}, (Ok (GStr "/tmp/podcast.mp3")).
    assert (Hin : In (EvGenerate
                        {| g_urls := VList [];
                           g_text := VStr (joined_text ["a"; ""; "b"]);
                           g_conversation_config := 9%nat;
                           g_tts_model := VStr "openai";
                           g_longform := false |}
                        (Ok (GStr "/tmp/podcast.mp3")))
                     (events_since sample_world
                        (snd (generate_podcast_endpoint (sample_env None true true)
                                (sample_data None) sample_world)))).
    { vm_compute. tauto. }
    split; [exact Hin|].
    exact (proj2 (Hlist ["a"; ""; "b"] eq_refl) _ _ Hin).
Defined.

(** C3 as it is stated fails: a [podcast_id] that is present but empty is
    answered with the raw bytes. *)
Lemma present_podcast_id_answered_raw :
  ~ (forall E data w resp w',
       generate_podcast_endpoint E data w = (Ok resp, w') ->
       dict_mem "podcast_id" data = true ->
       exists audio_url, resp = JSONResponse 200 [("audio_url", audio_url)]).
Proof.
  intros Hclaim.
  destruct (Hclaim (sample_env None true true) (sample_data (Some ""))
              sample_world
              (Response ["I"; "D"; "3"]%byte "audio/mpeg"
                 [("Content-Type", "audio/mpeg"); ("Content-Length", "3")])
              (snd (generate_podcast_endpoint (sample_env None true true)
                      (sample_data (Some "")) sample_world)))
    as [audio_url Hresp].
  - vm_compute. reflexivity.
  - reflexivity.
  - discriminate.
Qed.

(** ** Where the code parts from its documentation *)

(** C1, at a base without a [text_to_speech] block.  The override's block
    is asked for by the claim and promised by the docstring ("preferring
    user values"); the merged configuration has none. *)
Theorem merge_configs_drops_override_tts :
  forall update_from_seq,
    dict_get "text_to_speech" [("text_to_speech", VDict 2%nat); ("creativity", VInt 1)]
      = Some (VDict 2%nat) /\
    merge_configs update_from_seq 0%nat 1%nat empty_base_heap
      = (Ok 3%nat, empty_base_heap ++ [[("creativity", VInt 1)]]) /\
    dict_get "text_to_speech" [("creativity", VInt 1)] = None.
Proof. intros update_from_seq. repeat split. Qed.

(** C9, at a base and an override that both have a [text_to_speech]
    block.  The copy is shallow: the base's own block, at address 1, holds
    the override's model after the call. *)
Theorem merge_configs_mutates_base_tts :
  forall update_from_seq,
    both_tts_heap !! 1%nat = Some [("model", VStr "base-model")] /\
    exists merged h',
      merge_configs update_from_seq 0%nat 2%nat both_tts_heap = (Ok merged, h') /\
      h' !! 1%nat = Some [("model", VStr "override-model")] /\
      h' !! 0%nat = both_tts_heap !! 0%nat /\
      h' !! 2%nat = both_tts_heap !! 2%nat /\
      h' !! 3%nat = both_tts_heap !! 3%nat.
Proof.
  intros update_from_seq. split; [reflexivity|].
  eexists _, _. split; [reflexivity|]. repeat split.
Qed.

(** C2, at a request with a [podcast_id] whose upload is refused.  The
    handler fails with a 500; of the two files that came into being, the
    generator's was removed when the intro was added, the combined one is
    still there and was never removed. *)
Theorem upload_failure_leaves_temp_file :
  let run := generate_podcast_endpoint (sample_env None false true)
               (sample_data (Some "p1")) sample_world in
  fst run = Raise (HTTPExceptionOf 500
                     (Wrapped "Failed to upload to S3: "
                        (Raised "ClientError" "upload refused"))) /\
  created (events_since sample_world (snd run))
    = ["/tmp/podcast.mp3"; "/app/temp_audio/tmpab12.mp3"] /\
  removed (events_since sample_world (snd run)) = ["/tmp/podcast.mp3"] /\
  w_files (snd run) !! "/app/temp_audio/tmpab12.mp3"
    = Some ["R"; "I"; "F"; "F"; "I"; "D"; "3"]%byte.
Proof. vm_compute. repeat split. Qed.

(** ** [merge_configs], where the base has the blocks the override has *)

Lemma dict_get_set k k' v d :
  dict_get k (dict_set k' v d)
  = if String.eqb k k' then Some v else dict_get k d.
Proof.
  induction d as [|[k0 v0] d IH]; cbn.
  - by rewrite (String.eqb_sym k k').
  - destruct (String.eqb_spec k' k0) as [->|Hne]; cbn.
    + by destruct (String.eqb k k0).
    + destruct (String.eqb_spec k k0) as [->|]; [|exact IH].
      destruct (String.eqb_spec k0 k') as [->|]; [done|reflexivity].
Qed.

Lemma dict_get_not_in k (d : pydict) :
  ~ In k (map fst d) -> dict_get k d = None.
Proof.
  induction d as [|[k0 v0] d IH]; cbn; [done|]. intros Hnot.
  destruct (String.eqb_spec k k0) as [->|]; [tauto|]. apply IH. tauto.
Qed.

Lemma overlay_get k base over :
  List.NoDup (map fst over) ->
  dict_get k (overlay base over)
  = match dict_get k over with
    | Some v => Some v
    | None => dict_get k base
    end.
Proof.
  unfold overlay. revert base.
  induction over as [|[k0 v0] over IH]; intros base Hnodup; cbn; [done|].
  inversion Hnodup as [|? ? Hnot Hrest]; subst.
  rewrite (IH _ Hrest), dict_get_set.
  destruct (String.eqb_spec k k0) as [->|]; [|done].
  by rewrite (dict_get_not_in _ _ Hnot).
Qed.

Lemma override_top_level_get k merged user :
  List.NoDup (map fst user) ->
  dict_get k (override_top_level merged user)
  = if String.eqb k "text_to_speech" then dict_get k merged
    else match dict_get k user with
         | Some VNone | None => dict_get k merged
         | Some v => Some v
         end.
Proof.
  unfold override_top_level. revert merged.
  induction user as [|[k0 v0] user IH]; intros merged Hnodup; cbn.
  - by destruct (String.eqb k _).
  - inversion Hnodup as [|? ? Hnot Hrest]; subst. rewrite (IH _ Hrest).
    destruct (String.eqb_spec k "text_to_speech") as [->|Hk].
    + destruct (String.eqb_spec k0 "text_to_speech") as [->|Hk0]; cbn; [done|].
      destruct v0; try done; rewrite dict_get_set;
        by destruct (String.eqb_spec "text_to_speech" k0) as [<-|].
    + destruct (String.eqb_spec k k0) as [->|Hkk0].
      * rewrite (dict_get_not_in _ _ Hnot).
        destruct (String.eqb_spec k0 "text_to_speech"); [done|]. cbn.
        destruct v0; try done; by rewrite dict_get_set, String.eqb_refl.
      * destruct (negb (String.eqb k0 "text_to_speech")); [|done].
        destruct v0; try done; rewrite dict_get_set;
          by destruct (String.eqb_spec k k0).
Qed.

Lemma setitem_run a k v h d :
  h !! a = Some d -> setitem a k v h = (Ok tt, <[a := dict_set k v d]> h).
Proof. intros Ha. unfold setitem, bind, deref, store, modify. by rewrite Ha. Qed.

(** A loop whose every turn rewrites the object at [a] rewrites it by the
    fold of its turns. *)
Lemma for_each_rewrites {A} (a : addr) (step : pydict -> A -> pydict)
      (body : A -> M heap unit) (items : list A) :
  (forall x h d, h !! a = Some d -> body x h = (Ok tt, <[a := step d x]> h)) ->
  forall h d, h !! a = Some d ->
    for_each items body h = (Ok tt, <[a := fold_left step items d]> h).
Proof.
  intros Hbody. induction items as [|x items IH]; intros h d Ha;
    cbn [for_each fold_left].
  - by rewrite list_insert_id.
  - unfold bind. rewrite (Hbody _ _ _ Ha).
    rewrite (IH _ (step d x)).
    + by rewrite list_insert_insert_eq.
    + apply list_lookup_insert_eq. by eapply lookup_lt_Some.
Qed.

Lemma update_loop_run a items h d :
  h !! a = Some d ->
  for_each items (fun kv => setitem a (fst kv) (snd kv)) h
  = (Ok tt, <[a := overlay d items]> h).
Proof.
  intros Ha. unfold overlay.
  apply (for_each_rewrites a (fun d kv => dict_set (fst kv) (snd kv) d)); [|done].
  intros x h0 d0. apply setitem_run.
Qed.

Lemma top_level_loop_run merged items h d :
  h !! merged = Some d ->
  for_each items (fun kv =>
    let (key, value) := kv : string * value in
    if negb (String.eqb key "text_to_speech") then
      match value with
      | VNone => ret tt
      | _ => setitem merged key value
      end
    else ret tt) h
  = (Ok tt, <[merged := override_top_level d items]> h).
Proof.
  intros Ha. unfold override_top_level.
  apply (for_each_rewrites merged
           (fun d kv =>
              if negb (String.eqb (fst kv) "text_to_speech") then
                match snd kv with
                | VNone => d
                | v => dict_set (fst kv) v d
                end
              else d)); [|done].
  intros [key v] h0 d0 Hd0. cbn.
  destruct (negb (String.eqb key "text_to_speech"));
    [|by rewrite list_insert_id].
  destruct v; try (by apply setitem_run). by rewrite list_insert_id.
Qed.

Lemma deref_run a (h : heap) d : h !! a = Some d -> deref a h = (Ok d, h).
Proof. intros Ha. unfold deref. by rewrite Ha. Qed.

Lemma new_dict_run d (h : heap) : new_dict d h = (Ok (List.length h), h ++ [d]).
Proof. reflexivity. Qed.

Lemma ret_run {S A} (a : A) (s : S) : ret a s = (Ok a, s).
Proof. reflexivity. Qed.

Lemma of_outcome_run {S A} (o : outcome A) (s : S) : of_outcome o s = (o, s).
Proof. reflexivity. Qed.

Lemma bind_ok {S A B} (m : M S A) (k : A -> M S B) s a s1 :
  m s = (Ok a, s1) -> bind m k s = k a s1.
Proof. intros Hm. unfold bind. by rewrite Hm. Qed.

Ltac run_bind H := rewrite (bind_ok _ _ _ _ _ H); cbv beta.

(** When the base or the override has no [text_to_speech] block, nothing
    that existed is touched: the result is one new object, the base with
    the override's non-null top-level values laid over it, and with the
    base's [text_to_speech] entry, if it has one. *)
Theorem merge_configs_without_common_tts
    update_from_seq (h : heap) (b o : addr) (B O : pydict) :
  h !! b = Some B -> h !! o = Some O ->
  dict_get "text_to_speech" B = None \/ dict_get "text_to_speech" O = None ->
  List.NoDup (map fst O) ->
  exists Mg,
    merge_configs update_from_seq b o h = (Ok (List.length h), h ++ [Mg]) /\
    dict_get "text_to_speech" Mg = dict_get "text_to_speech" B /\
    forall k, k <> "text_to_speech" ->
      dict_get k Mg = match dict_get k O with
                      | Some VNone | None => dict_get k B
                      | Some v => Some v
                      end.
Proof.
  intros Hb Ho Htts Hnodup. exists (override_top_level B O).
  assert (Hmem : dict_mem "text_to_speech" B && dict_mem "text_to_speech" O = false).
  { unfold dict_mem. destruct Htts as [-> | ->]; [done|].
    by destruct (dict_get _ B). }
  assert (Hn : (h ++ [B]) !! List.length h = Some B).
  { by rewrite list_lookup_middle. }
  assert (Ho' : (h ++ [B]) !! o = Some O).
  { rewrite lookup_app_l; [done|]. by eapply lookup_lt_Some. }
  split; [|split].
  - unfold merge_configs.
    run_bind (deref_run _ _ _ Hb).
    run_bind (new_dict_run B h).
    run_bind (deref_run _ _ _ Hn).
    run_bind (deref_run _ _ _ Ho'). rewrite Hmem. cbv iota.
    run_bind (ret_run (S := heap) tt (h ++ [B])).
    run_bind (deref_run _ _ _ Ho').
    run_bind (top_level_loop_run _ O _ _ Hn).
    unfold ret. f_equal.
    replace (List.length h) with (List.length h + 0)%nat by lia.
    by rewrite insert_app_r.
  - rewrite override_top_level_get by done. by rewrite String.eqb_refl.
  - intros k Hk. rewrite override_top_level_get by done.
    by destruct (String.eqb_spec k "text_to_speech").
Qed.

(** When both have a [text_to_speech] block, the base's own block is
    rewritten in place, each key of the override's block over it, and the
    merged configuration points to that same block; the other top-level
    keys follow the override where it is non-null; no other object that
    existed is touched. *)
Theorem merge_configs_overlays_tts
    update_from_seq (h : heap) (b o tb ob : addr) (B O TB TO : pydict) :
  h !! b = Some B -> h !! o = Some O ->
  dict_get "text_to_speech" B = Some (VDict tb) ->
  dict_get "text_to_speech" O = Some (VDict ob) ->
  h !! tb = Some TB -> h !! ob = Some TO -> tb <> o ->
  List.NoDup (map fst O) -> List.NoDup (map fst TO) ->
  exists h' Mg TB',
    merge_configs update_from_seq b o h = (Ok (List.length h), h') /\
    h' !! List.length h = Some Mg /\
    dict_get "text_to_speech" Mg = Some (VDict tb) /\
    h' !! tb = Some TB' /\
    (forall k, dict_get k TB' = match dict_get k TO with
                                | Some v => Some v
                                | None => dict_get k TB
                                end) /\
    (forall k, k <> "text_to_speech" ->
       dict_get k Mg = match dict_get k O with
                       | Some VNone | None => dict_get k B
                       | Some v => Some v
                       end) /\
    (forall a, (a < List.length h)%nat -> a <> tb -> h' !! a = h !! a).
Proof.
  intros Hb Ho HtB HtO Htb Hob Hne HndO HndTO.
  set (n := List.length h).
  set (h2 := (h ++ [B]) ++ [[]]).
  set (h3 := <[tb := overlay TB TO]> h2).
  assert (Hlt : forall a d, h !! a = Some d -> (a < n)%nat).
  { intros a d Ha. by eapply lookup_lt_Some. }
  assert (Hold1 : forall a d, h !! a = Some d -> (h ++ [B]) !! a = Some d).
  { intros a d Ha. rewrite lookup_app_l; eauto. }
  assert (Hold2 : forall a d, h !! a = Some d -> h2 !! a = Some d).
  { intros a d Ha. unfold h2. rewrite lookup_app_l; [eauto|].
    rewrite length_app. cbn. pose proof (Hlt _ _ Ha). lia. }
  assert (Hn1 : (h ++ [B]) !! n = Some B) by (by rewrite list_lookup_middle).
  assert (Hn2 : h2 !! n = Some B).
  { unfold h2. rewrite lookup_app_l; [done|]. rewrite length_app. cbn. lia. }
  assert (Htbn : tb <> n) by (pose proof (Hlt _ _ Htb); lia).
  assert (Hn3 : h3 !! n = Some B).
  { unfold h3. by rewrite list_lookup_insert_ne. }
  assert (Ho3 : h3 !! o = Some O).
  { unfold h3. rewrite list_lookup_insert_ne by done. eauto. }
  assert (Hmem : dict_mem "text_to_speech" B && dict_mem "text_to_speech" O = true).
  { unfold dict_mem. by rewrite HtB, HtO. }
  exists (<[n := override_top_level B O]> h3),
         (override_top_level B O), (overlay TB TO).
  split; [|split; [|split; [|split; [|split; [|split]]]]].
  - unfold merge_configs.
    run_bind (deref_run _ _ _ Hb).
    run_bind (new_dict_run B h).
    run_bind (deref_run _ _ _ Hn1).
    run_bind (deref_run _ _ _ (Hold1 _ _ Ho)). rewrite Hmem. cbv iota.
    rewrite HtB.
    assert (Hblock :
      (let* target := of_outcome (Ok (VDict tb)) in
       let* empty := new_dict [] in
       let* arg := py_get (VDict o) "text_to_speech" (VDict empty) in
       py_update update_from_seq target arg) (h ++ [B]) = (Ok tt, h3)).
    { run_bind (of_outcome_run (S := heap) (Ok (VDict tb)) (h ++ [B])).
      run_bind (new_dict_run [] (h ++ [B])).
      unfold py_get.
      assert (Harg :
        (let* d := deref o in
         ret match dict_get "text_to_speech" d with
             | Some v => v
             | None => VDict (List.length (h ++ [B]))
             end) h2 = (Ok (VDict ob), h2)).
      { run_bind (deref_run _ _ _ (Hold2 _ _ Ho)). by rewrite HtO. }
      run_bind Harg. unfold py_update.
      run_bind (deref_run _ _ _ (Hold2 _ _ Hob)).
      apply update_loop_run. by apply Hold2. }
    run_bind Hblock.
    run_bind (deref_run _ _ _ Ho3).
    run_bind (top_level_loop_run _ O _ _ Hn3).
    reflexivity.
  - apply list_lookup_insert_eq. unfold h3, h2.
    rewrite length_insert, !length_app. cbn. lia.
  - rewrite override_top_level_get by done. by rewrite String.eqb_refl.
  - rewrite list_lookup_insert_ne by done. unfold h3.
    apply list_lookup_insert_eq. unfold h2. rewrite !length_app. cbn.
    pose proof (Hlt _ _ Htb). lia.
  - intros k. by apply overlay_get.
  - intros k Hk. rewrite override_top_level_get by done.
    by destruct (String.eqb_spec k "text_to_speech").
  - intros a Ha Hatb. rewrite list_lookup_insert_ne by lia. unfold h3.
    rewrite list_lookup_insert_ne by done. unfold h2.
    rewrite <- app_assoc. by rewrite lookup_app_l.
Qed.

(** ** Temporary files: what does hold *)

Lemma removed_app evs1 evs2 : removed (evs1 ++ evs2) = removed evs1 ++ removed evs2.
Proof.
  induction evs1 as [|[] evs1 IH]; cbn; try done. by rewrite IH.
Qed.

(** [addIntroToAudio] removes nothing, or its argument and nothing else;
    it returns its argument unless it removed it. *)
Lemma addIntroToAudio_removes E path w p w1 :
  addIntroToAudio E path w = (Ok p, w1) ->
  exists evs,
    w_trace w1 = w_trace w ++ evs /\
    ((removed evs = [] /\ p = path) \/
     (removed evs = [path] /\ w_files w1 !! path = None)).
Proof.
  assert (Hsame : forall q w0, (Ok path, w) = (Ok q, w0) ->
            exists evs, w_trace w0 = w_trace w ++ evs /\
              ((removed evs = [] /\ q = path) \/
               (removed evs = [path] /\ w_files w0 !! path = None))).
  { intros q w0 [= <- <-]. exists []. rewrite app_nil_r. auto. }
  unfold addIntroToAudio, audio_from_file, path_exists, bind, try_except,
    gets, of_outcome, ret, set_files, log, modify.
  destruct (bool_decide _); run_step; [|apply Hsame].
  rewrite read_file_run.
  destruct (w_files w !! intro_path E) as [ib|]; run_step; [|apply Hsame].
  destruct (from_wav E ib) as [intro|?]; run_step; [|apply Hsame].
  rewrite read_file_run.
  destruct (w_files w !! path) as [pb|] eqn:Hpath; run_step; [|apply Hsame].
  destruct (from_file E path pb) as [podcast|?]; run_step; [|apply Hsame].
  destruct (audio_add E intro podcast) as [combined|?]; run_step; [|apply Hsame].
  destruct (named_temporary_file E (w_files w)) as [tmp|?]; run_step; [|apply Hsame].
  destruct (audio_export E combined "mp3") as [encoded|?]; run_step.
  2:{ intros [= <- <-]. exists [EvCreate tmp]. cbn. auto. }
  destruct (bool_decide _) eqn:Hex; run_step.
  - apply bool_decide_eq_true in Hex. rewrite os_remove_run. cbn.
    destruct Hex as [x ->]. intros [= <- <-]. cbn.
    exists [EvCreate tmp; EvRemove path]. rewrite <- app_assoc. split; [done|].
    right. split; [done|]. apply lookup_delete_eq.
  - apply bool_decide_eq_false in Hex. intros [= <- <-]. cbn.
    exists [EvCreate tmp]. split; [done|]. right. exfalso. apply Hex.
    rewrite !lookup_insert_is_Some. destruct (decide (tmp = path)); eauto 6.
Qed.

Lemma deliver_removes E data path w r w' :
  deliver E data path w = (r, w') ->
  exists evs,
    w_trace w' = w_trace w ++ evs /\
    List.NoDup (removed evs) /\
    (forall resp, r = Ok resp -> w_files w' !! path = None).
Proof.
  intros Hrun. pose proof (deliver_run E data path w) as H. cbn zeta in H.
  destruct (truthy (w_heap w) (get_podcast_id data)).
  - destruct H as (awi & w1 & md & Hintro & _ & _ & Hup).
    destruct (addIntroToAudio_removes _ _ _ _ _ Hintro) as (evs & Htr & Hrem).
    destruct (upload_file E awi _ w1) as [[url|e] w2] eqn:Hupload.
    + apply upload_file_run in Hupload as [_ Hfile].
      destruct (Hfile url eq_refl) as [x Hx].
      destruct Hup as [rc Hup]. rewrite Hup in Hrun. injection Hrun as <- <-. cbn.
      eexists. rewrite Htr, <- app_assoc. split; [reflexivity|].
      rewrite removed_app. cbn.
      destruct Hrem as [[-> ->]|[-> Hgone]]; cbn.
      * split; [repeat constructor; cbn; tauto|]. intros _ _.
        apply lookup_delete_eq.
      * split.
        -- repeat constructor; cbn; [|tauto]. intros [->|[]]. congruence.
        -- intros _ _. rewrite lookup_delete_ne; [done|]. congruence.
    + rewrite Hup in Hrun. injection Hrun as <- <-. cbn.
      eexists. rewrite Htr, <- app_assoc. split; [reflexivity|].
      rewrite removed_app. cbn. rewrite app_nil_r. split; [|discriminate].
      destruct Hrem as [[-> _]|[-> _]]; repeat constructor; cbn; tauto.
  - rewrite H in Hrun. destruct (w_files w !! path) as [audio_data|].
    + injection Hrun as <- <-. cbn. eexists. split; [reflexivity|]. cbn.
      split; [repeat constructor; cbn; tauto|]. intros _ _.
      apply lookup_delete_eq.
    + injection Hrun as <- <-. exists []. rewrite app_nil_r.
      split; [done|]. split; [constructor|discriminate].
Qed.

Lemma dispose_removes E data result w r w' :
  dispose E data result w = (r, w') ->
  exists evs,
    w_trace w' = w_trace w ++ evs /\ List.NoDup (removed evs).
Proof.
  assert (Hnone : forall e, (Raise e, w) = (r, w') ->
            exists evs, w_trace w' = w_trace w ++ evs /\ List.NoDup (removed evs)).
  { intros e [= <- <-]. exists []. rewrite app_nil_r. split; [done|constructor]. }
  assert (Hdeliver : forall path, deliver E data path w = (r, w') ->
            exists evs, w_trace w' = w_trace w ++ evs /\ List.NoDup (removed evs)).
  { intros path (evs & ? & ? & _)%deliver_removes. eauto. }
  destruct result as [s|p|]; cbn; [|apply Hdeliver|apply Hnone].
  unfold bind, path_exists, gets. destruct (bool_decide _); [apply Hdeliver|].
  apply Hnone.
Qed.

Lemma removed_created (written : list (string * bytes)) :
  removed (map (fun kv => EvCreate (fst kv)) written) = [].
Proof. by induction written. Qed.

(** No run of the handler removes a path twice. *)
Theorem no_path_removed_twice E (data : pydict) (w w' : world) (r : outcome response) :
  generate_podcast_endpoint E data w = (r, w') ->
  List.NoDup (removed (events_since w w')).
Proof.
  intros (rt & wt & Htry & Hr)%endpoint_run.
  assert (Htry_rem : exists evs,
            w_trace wt = w_trace w ++ evs /\ List.NoDup (removed evs)).
  { apply endpoint_try_run in Htry as [(e & -> & _ & Htr)|(args & w1 & Hprep & Hgen)].
    { exists []. rewrite app_nil_r. split; [done|constructor]. }
    apply lift_run in Hprep as (_ & _ & Htr1).
    pose proof (call_generate_run E args w1) as Hcall. cbn zeta in Hcall.
    rewrite Hcall in Hgen. clear Hcall.
    destruct (generate_podcast E args (w_heap w1) (w_files w1)) as [rg written].
    cbn in Hgen. destruct rg as [result|e].
    - apply dispose_removes in Hgen as (evs & Htr & Hevs). cbn in Htr.
      eexists. rewrite Htr, Htr1, <- !app_assoc. split; [reflexivity|].
      by rewrite !removed_app, removed_created.
    - destruct Hgen as [-> ->]. cbn. eexists. rewrite Htr1.
      split; [reflexivity|]. rewrite removed_app, removed_created. constructor. }
  destruct Htry_rem as (evs & Htr & Hevs). destruct rt as [resp|e].
  - destruct Hr as [-> ->]. by rewrite (events_since_app _ _ _ Htr).
  - destruct Hr as (-> & _ & _ & [Htr'|[rc Htr']]).
    + rewrite (events_since_app w w' evs); [done|congruence].
    + rewrite (events_since_app w w'
                 (evs ++ [EvUpdateStatus (get_podcast_id data) "failed" e rc])).
      * rewrite removed_app. cbn. by rewrite app_nil_r.
      * rewrite Htr', Htr. by rewrite <- app_assoc.
Qed.

(** When the handler answers 200, the file that the generator named, and
    that was there after the generation, is gone. *)
Theorem result_file_removed_on_success
    E (data : pydict) (w w' : world) (resp : response) :
  generate_podcast_endpoint E data w = (Ok resp, w') ->
  exists args w1 result w2 path,
    lift (prepare_request E data) w = (Ok args, w1) /\
    call_generate E args w1 = (Ok result, w2) /\
    (result = GStr path \/ result = GObj path) /\
    w_files w' !! path = None.
Proof.
  intros (args & w1 & result & w2 & path & Hprep & Hcall & Hresult & Hdeliver)%endpoint_ok.
  exists args, w1, result, w2, path. repeat (split; [done|]).
  apply deliver_removes in Hdeliver as (evs & _ & _ & Hgone). by eapply Hgone.
Qed.

(** ** The builtins of the model on familiar inputs *)

Example splitext_examples :
  splitext_ext "/app/temp_audio/tmpab12.mp3" = ".mp3" /\
  splitext_ext "/data/show.v2/episode.WAV" = ".WAV" /\
  splitext_ext "/data/show.v2/episode" = "" /\
  splitext_ext "/home/user/.hidden" = "" /\
  splitext_ext "archive.tar.gz" = ".gz" /\
  splitext_ext "trailing." = ".".
Proof. repeat split. Qed.

Example basename_examples :
  basename "/app/temp_audio/tmpab12.mp3" = "tmpab12.mp3" /\
  basename "podcast.mp3" = "podcast.mp3" /\
  basename "/tmp/" = "".
Proof. repeat split. Qed.

Example str_int_examples :
  str_int 0 = "0" /\ str_int 61 = "61" /\ str_int 1048576 = "1048576".
Proof. repeat split. Qed.

Example content_type_examples :
  table_get (lower (splitext_ext "/tmp/Episode.OGG")) content_type_map "audio/mpeg"
    = "audio/ogg" /\
  table_get (lower (splitext_ext "/tmp/episode.flac")) content_type_map "audio/mpeg"
    = "audio/mpeg".
Proof. repeat split. Qed.

(** A request without [podcast_id] in the sample deployment: the bytes of
    the generated file come back, and only the intro clip is left on disk. *)
Example sample_run_raw :
  let run := generate_podcast_endpoint (sample_env None true true)
               (sample_data None) sample_world in
  fst run = Ok (Response ["I"; "D"; "3"]%byte "audio/mpeg"
                  [("Content-Type", "audio/mpeg"); ("Content-Length", "3")]) /\
  w_files (snd run) = {[ "/app/intro.wav" := ["R"; "I"; "F"; "F"]%byte ]}.
Proof. vm_compute. split; reflexivity. Qed.

(** The same with a [podcast_id]: the combined file is uploaded, recorded
    and removed. *)
Example sample_run_stored :
  let run := generate_podcast_endpoint (sample_env None true true)
               (sample_data (Some "p1")) sample_world in
  fst run = Ok (JSONResponse 200
                  [("audio_url", "https://cdn.example/p1/tmpab12.mp3")]) /\
  w_files (snd run) = {[ "/app/intro.wav" := ["R"; "I"; "F"; "F"]%byte ]} /\
  removed (events_since sample_world (snd run))
    = ["/tmp/podcast.mp3"; "/app/temp_audio/tmpab12.mp3"].
Proof. vm_compute. repeat split. Qed.

(** In the sample deployment the base configuration cannot be loaded, so
    the handler merges into an empty base: the configuration it hands to
    the generator has no [text_to_speech] entry, although the one it built
    from the request has. *)
Example sample_run_config_without_tts :
  let run := lift (prepare_request (sample_env None true true) (sample_data None))
               sample_world in
  exists args user_config,
    fst run = Ok args /\
    w_heap (snd run) !! 8%nat = Some user_config /\
    dict_mem "text_to_speech" user_config = true /\
    exists conversation_config,
      w_heap (snd run) !! g_conversation_config args = Some conversation_config /\
      dict_mem "text_to_speech" conversation_config = false.
Proof. vm_compute. eexists _, _. repeat split. eexists. repeat split. Qed.

(** * Further properties of the handler *)

(** ** The anatomy of a request's log *)

Lemma filter_file_events (f : event -> bool) (evs : list event) :
  (forall p, f (EvCreate p) = false) -> (forall p, f (EvRemove p) = false) ->
  Forall is_file_event evs -> List.filter f evs = [].
Proof.
  intros Hc Hr. induction 1 as [|[] evs Hev _ IH]; cbn in *; try done.
  - by rewrite Hc.
  - by rewrite Hr.
Qed.

Lemma filter_created (f : event -> bool) (written : list (string * bytes)) :
  (forall p, f (EvCreate p) = false) ->
  List.filter f (map (fun kv => EvCreate (fst kv)) written) = [].
Proof. intros Hc. induction written; cbn; [done|]. by rewrite Hc. Qed.

(** The events of a disposition: none is a call of the generator or a
    status update, and without a [podcast_id] none writes to a store. *)
Lemma deliver_anatomy E data path w r w' :
  deliver E data path w = (r, w') ->
  w_heap w' = w_heap w /\
  exists evs,
    w_trace w' = w_trace w ++ evs /\
    List.filter is_generate evs = [] /\
    List.filter is_status evs = [] /\
    (truthy (w_heap w) (get_podcast_id data) = false ->
     List.filter is_store_write evs = []).
Proof.
  intros Hrun. pose proof (deliver_run E data path w) as H. cbn zeta in H.
  destruct (truthy (w_heap w) (get_podcast_id data)) eqn:Hpid.
  - destruct H as (awi & w1 & md & Hintro & Hheap & _ & Hup).
    destruct (addIntroToAudio_trace _ _ _ _ _ Hintro) as (evs & Hevs & Hfile).
    pose proof (filter_file_events is_generate evs
                  ltac:(done) ltac:(done) Hfile) as Hg.
    pose proof (filter_file_events is_status evs
                  ltac:(done) ltac:(done) Hfile) as Hs.
    destruct (upload_file E awi _ w1) as [[url|e] w2].
    + destruct Hup as [rc Hup]. rewrite Hup in Hrun. injection Hrun as <- <-.
      cbn. repeat (split; [done|]). eexists. rewrite Hevs, <- app_assoc.
      split; [reflexivity|]. rewrite !List.filter_app, Hg, Hs. by cbn.
    + rewrite Hup in Hrun. injection Hrun as <- <-.
      cbn. repeat (split; [done|]). eexists. rewrite Hevs, <- app_assoc.
      split; [reflexivity|]. rewrite !List.filter_app, Hg, Hs. by cbn.
  - rewrite H in Hrun. destruct (w_files w !! path) as [audio_data|].
    + injection Hrun as <- <-. cbn. repeat (split; [done|]). eexists.
      split; [reflexivity|]. by cbn.
    + injection Hrun as <- <-. repeat (split; [done|]). exists [].
      rewrite app_nil_r. by cbn.
Qed.

Lemma dispose_anatomy E data result w r w' :
  dispose E data result w = (r, w') ->
  w_heap w' = w_heap w /\
  exists evs,
    w_trace w' = w_trace w ++ evs /\
    List.filter is_generate evs = [] /\
    List.filter is_status evs = [] /\
    (truthy (w_heap w) (get_podcast_id data) = false ->
     List.filter is_store_write evs = []).
Proof.
  assert (Hnone : forall e, (Raise e, w) = (r, w') ->
            w_heap w' = w_heap w /\
            exists evs, w_trace w' = w_trace w ++ evs /\
              List.filter is_generate evs = [] /\
              List.filter is_status evs = [] /\
              (truthy (w_heap w) (get_podcast_id data) = false ->
               List.filter is_store_write evs = [])).
  { intros e [= <- <-]. split; [done|]. exists []. by rewrite app_nil_r. }
  assert (Hdeliver : forall path, deliver E data path w = (r, w') ->
            w_heap w' = w_heap w /\
            exists evs, w_trace w' = w_trace w ++ evs /\
              List.filter is_generate evs = [] /\
              List.filter is_status evs = [] /\
              (truthy (w_heap w) (get_podcast_id data) = false ->
               List.filter is_store_write evs = [])).
  { intros path ?%deliver_anatomy. done. }
  destruct result as [s|p|]; cbn; [|apply Hdeliver|apply Hnone].
  unfold bind, path_exists, gets. destruct (bool_decide _); [apply Hdeliver|].
  apply Hnone.
Qed.

(** The [except] block, exactly: one status update when the request has a
    [podcast_id], none otherwise, and the 500 in both cases. *)
Lemma endpoint_except_exact E data e w :
  exists evs,
    endpoint_except E data e w =
      (Raise (HTTPExceptionOf 500 e),
       {| w_heap := w_heap w; w_files := w_files w; w_trace := w_trace w ++ evs |}) /\
    if truthy (w_heap w) (get_podcast_id data)
    then exists rc, evs = [EvUpdateStatus (get_podcast_id data) "failed" e rc]
    else evs = [].
Proof.
  unfold endpoint_except, bind at 1, gets at 1.
  destruct (truthy (w_heap w) (get_podcast_id data)).
  - unfold bind, try_except, observe, ret, raise.
    destruct (update_podcast_status E _ "failed" _ w) as [rc w1] eqn:Hdb.
    apply update_podcast_status_run in Hdb as ->.
    exists [EvUpdateStatus (get_podcast_id data) "failed" e rc].
    split; [by destruct rc | eauto].
  - exists []. split; [|done]. cbn. rewrite app_nil_r. by destruct w.
Qed.

Lemma endpoint_try_anatomy E data w rt wt :
  endpoint_try E data w = (rt, wt) ->
  exists evs,
    w_trace wt = w_trace w ++ evs /\
    (List.length (List.filter is_generate evs) <= 1)%nat /\
    List.filter is_status evs = [] /\
    (truthy (w_heap wt) (get_podcast_id data) = false ->
     List.filter is_store_write evs = []) /\
    (forall e h', prepare_request E data (w_heap w) = (Raise e, h') ->
       evs = [] /\ rt = Raise e).
Proof.
  unfold endpoint_try, bind.
  destruct (lift (prepare_request E data) w) as [[args|e] w1] eqn:Hprep;
    apply lift_run in Hprep as (Hprep & _ & Htr1).
  2:{ intros [= <- <-]. exists []. rewrite app_nil_r. cbn.
      split; [done|]. split; [lia|]. split; [done|]. split; [done|].
      intros e0 h' He0. rewrite He0 in Hprep. by injection Hprep as <- _. }
  pose proof (call_generate_run E args w1) as Hcall. cbn zeta in Hcall.
  rewrite Hcall. clear Hcall.
  destruct (generate_podcast E args (w_heap w1) (w_files w1)) as [rg written].
  cbn [fst snd].
  assert (Hgen : forall (f : event -> bool),
            (forall p, f (EvCreate p) = false) ->
            List.filter f (map (fun kv => EvCreate (fst kv)) written
                             ++ [EvGenerate args rg])
            = List.filter f [EvGenerate args rg]).
  { intros f Hf. by rewrite List.filter_app, filter_created. }
  destruct rg as [result|e].
  - intros (Hheap & evs & Htr & Hg & Hs & Hw)%dispose_anatomy. cbn in Htr, Hheap, Hw.
    eexists. rewrite Htr, Htr1, <- !app_assoc. split; [reflexivity|].
    rewrite !List.filter_app, !filter_created, Hg, Hs by done. cbn.
    split; [lia|]. split; [done|]. split.
    + rewrite Hheap. intros Hpid. by rewrite (Hw Hpid).
    + intros e0 h' He0. rewrite He0 in Hprep. discriminate.
  - intros [= <- <-]. cbn. eexists. rewrite Htr1. split; [reflexivity|].
    rewrite !Hgen by done. cbn.
    split; [lia|]. split; [done|]. split; [done|].
    intros e0 h' He0. rewrite He0 in Hprep. discriminate.
Qed.

(** Every failure surfaces as a 500 that carries the exception, and is
    reported to the status store exactly once when the request has a
    [podcast_id], never otherwise; a success is never reported as a
    failure. *)
Theorem failure_reported_once E (data : pydict) (w w' : world) (r : outcome response) :
  generate_podcast_endpoint E data w = (r, w') ->
  match r with
  | Ok _ => List.filter is_status (events_since w w') = []
  | Raise x =>
      exists e,
        x = HTTPExceptionOf 500 e /\
        if truthy (w_heap w') (get_podcast_id data)
        then exists rc,
               List.filter is_status (events_since w w')
               = [EvUpdateStatus (get_podcast_id data) "failed" e rc]
        else List.filter is_status (events_since w w') = []
  end.
Proof.
  unfold generate_podcast_endpoint, try_except.
  destruct (endpoint_try E data w) as [[resp|e] wt] eqn:Htry;
    apply endpoint_try_anatomy in Htry as (evs & Htr & _ & Hs & _).
  - intros [= <- <-]. by rewrite (events_since_app _ _ _ Htr).
  - destruct (endpoint_except_exact E data e wt) as (evs' & -> & Hevs').
    intros [= <- <-]. exists e. split; [done|]. cbn [w_heap].
    rewrite (events_since_app w _ (evs ++ evs'))
      by (cbn; by rewrite Htr, <- app_assoc).
    rewrite List.filter_app, Hs. cbn.
    destruct (truthy (w_heap wt) (get_podcast_id data)).
    + destruct Hevs' as [rc ->]. by exists rc.
    + by rewrite Hevs'.
Qed.

Lemma generator_called_at_most_once_aux E data w r w' :
  generate_podcast_endpoint E data w = (r, w') ->
  (List.length (List.filter is_generate (events_since w w')) <= 1)%nat /\
  (forall e h', prepare_request E data (w_heap w) = (Raise e, h') ->
     List.filter is_generate (events_since w w') = [] /\
     r = Raise (HTTPExceptionOf 500 e)).
Proof.
  unfold generate_podcast_endpoint, try_except.
  destruct (endpoint_try E data w) as [[resp|e] wt] eqn:Htry;
    apply endpoint_try_anatomy in Htry as (evs & Htr & Hg & _ & _ & Hprep).
  - intros [= <- <-]. rewrite (events_since_app _ _ _ Htr). split; [done|].
    intros e h' He. by destruct (Hprep _ _ He).
  - destruct (endpoint_except_exact E data e wt) as (evs' & -> & Hevs').
    intros [= <- <-].
    rewrite (events_since_app w _ (evs ++ evs'))
      by (cbn; by rewrite Htr, <- app_assoc).
    assert (Hs : List.filter is_generate evs' = []).
    { destruct (truthy _ _); [by destruct Hevs' as [rc ->]|by rewrite Hevs']. }
    rewrite List.filter_app, Hs, app_nil_r. split; [done|].
    intros e0 h' He. destruct (Hprep _ _ He) as [-> [= ->]]. done.
Qed.

(** The generator is called at most once in a request, and not at all
    when the preparation of its arguments raises: that exception is the
    one the 500 carries. *)
Theorem generator_called_at_most_once
    E (data : pydict) (w w' : world) (r : outcome response) :
  generate_podcast_endpoint E data w = (r, w') ->
  (List.length (List.filter is_generate (events_since w w')) <= 1)%nat /\
  (forall e h', prepare_request E data (w_heap w) = (Raise e, h') ->
     List.filter is_generate (events_since w w') = [] /\
     r = Raise (HTTPExceptionOf 500 e)).
Proof. apply generator_called_at_most_once_aux. Qed.

(** A request without a (true) [podcast_id] never writes to the object
    store or to the status store, whether it succeeds or fails. *)
Theorem no_store_write_without_podcast_id
    E (data : pydict) (w w' : world) (r : outcome response) :
  generate_podcast_endpoint E data w = (r, w') ->
  truthy (w_heap w') (get_podcast_id data) = false ->
  List.filter is_store_write (events_since w w') = [].
Proof.
  unfold generate_podcast_endpoint, try_except.
  destruct (endpoint_try E data w) as [[resp|e] wt] eqn:Htry;
    apply endpoint_try_anatomy in Htry as (evs & Htr & _ & _ & Hw & _).
  - intros [= <- <-] Hpid. rewrite (events_since_app _ _ _ Htr). auto.
  - destruct (endpoint_except_exact E data e wt) as (evs' & -> & Hevs').
    intros [= <- <-]. cbn [w_heap]. intros Hpid. rewrite Hpid in Hevs'.
    rewrite (events_since_app w _ (evs ++ evs'))
      by (cbn; by rewrite Htr, <- app_assoc).
    rewrite List.filter_app, (Hw Hpid), Hevs'. done.
Qed.

(** ** [merge_configs] on a base whose block is not a mapping *)

(** When the override has a [text_to_speech] block and the base's entry
    under that key is not a dictionary (null, as an empty YAML entry
    loads), the merge raises [AttributeError]; the objects that existed
    are as they were. *)
Theorem merge_configs_rejects_scalar_tts
    update_from_seq (h : heap) (b o : addr) (B O : pydict) (v ov : value) :
  h !! b = Some B -> h !! o = Some O ->
  dict_get "text_to_speech" B = Some v -> (forall a, v <> VDict a) ->
  dict_get "text_to_speech" O = Some ov ->
  exists h',
    merge_configs update_from_seq b o h = (Raise AttributeError, h') /\
    forall a, (a < List.length h)%nat -> h' !! a = h !! a.
Proof.
  intros Hb Ho HtB Hv HtO.
  assert (Hn : (h ++ [B]) !! List.length h = Some B) by (by rewrite list_lookup_middle).
  assert (Ho1 : (h ++ [B]) !! o = Some O).
  { rewrite lookup_app_l; [done|]. by eapply lookup_lt_Some. }
  assert (Ho2 : ((h ++ [B]) ++ [[]]) !! o = Some O).
  { rewrite lookup_app_l; [done|]. rewrite length_app. cbn.
    apply lookup_lt_Some in Ho. lia. }
  assert (Hmem : dict_mem "text_to_speech" B && dict_mem "text_to_speech" O = true).
  { unfold dict_mem. by rewrite HtB, HtO. }
  exists ((h ++ [B]) ++ [[]]). split.
  - unfold merge_configs.
    run_bind (deref_run _ _ _ Hb).
    run_bind (new_dict_run B h).
    run_bind (deref_run _ _ _ Hn).
    run_bind (deref_run _ _ _ Ho1). rewrite Hmem. cbv iota. rewrite HtB.
    unfold bind at 1.
    run_bind (of_outcome_run (S := heap) (Ok v) (h ++ [B])).
    run_bind (new_dict_run [] (h ++ [B])).
    unfold py_get. unfold bind at 1. rewrite (bind_ok _ _ _ _ _ (deref_run _ _ _ Ho2)).
    rewrite HtO. unfold ret at 1. unfold py_update.
    destruct v; try reflexivity. by destruct (Hv a).
  - intros a Ha. rewrite <- app_assoc. by rewrite lookup_app_l.
Qed.

(** ** The access token, accepted *)

(** A request whose token is the configured secret, and not empty, goes
    on to the route unchanged. *)
Theorem auth_accepts_matching_token E (req : request) call_next (t : string) :
  headers_get "X-Podpod-Access-Token" (headers req) = Some t ->
  getenv E "PODPOD_API_ACCESS_TOKEN" = Some t ->
  t <> "" ->
  verify_token E req call_next = call_next req.
Proof.
  intros Htok Hsecret Hne. unfold verify_token.
  destruct (String.eqb (url_path req) "/health"); [done|].
  rewrite Htok, Hsecret. cbn. rewrite String.eqb_refl.
  by destruct (String.eqb_spec t "").
Qed.

(** An empty configured secret admits nobody: every request to a path
    other than [/health] is answered 401, whatever its token. *)
Theorem auth_rejects_all_with_empty_secret E (req : request) call_next w :
  getenv E "PODPOD_API_ACCESS_TOKEN" = Some "" ->
  url_path req <> "/health" ->
  verify_token E req call_next w = (Ok unauthorized, w).
Proof.
  intros Hsecret Hpath. unfold verify_token.
  destruct (String.eqb_spec (url_path req) "/health"); [done|].
  rewrite Hsecret.
  destruct (headers_get _ (headers req)) as [t|]; cbn; [|done].
  by destruct (String.eqb_spec t ""); cbn.
Qed.

(** ** [addIntroToAudio], when everything works *)

(** With the intro in place, the codec working and a fresh temporary
    name, the function returns that name: the file of that name holds the
    encoded concatenation, the original is removed, nothing else on disk
    changes. *)
Theorem addIntroToAudio_prepends_intro
    E (path tmp : string) (w : world) (encoded : bytes) :
  intro_codec E path w = Ok encoded ->
  named_temporary_file E (w_files w) = Ok tmp ->
  w_files w !! tmp = None ->
  addIntroToAudio E path w
  = (Ok tmp,
     {| w_heap := w_heap w;
        w_files := delete path (<[tmp := encoded]> (w_files w));
        w_trace := w_trace w ++ [EvCreate tmp; EvRemove path] |}).
Proof.
  unfold intro_codec. intros Hcodec Htmp Hfresh.
  destruct (w_files w !! intro_path E) as [ib|] eqn:Hintro; [|discriminate].
  destruct (from_wav E ib) as [intro|] eqn:Hwav; [|discriminate].
  destruct (w_files w !! path) as [pb|] eqn:Hpath; [|discriminate].
  destruct (from_file E path pb) as [podcast|] eqn:Hfile; [|discriminate].
  destruct (audio_add E intro podcast) as [combined|] eqn:Hadd; [|discriminate].
  unfold addIntroToAudio, audio_from_file, path_exists, bind, try_except,
    gets, of_outcome, ret, set_files, log, modify.
  rewrite bool_decide_true by eauto. run_step.
  rewrite read_file_run, Hintro. run_step. rewrite Hwav.
  rewrite read_file_run, Hpath. run_step. rewrite Hfile, Hadd, Htmp, Hcodec.
  run_step.
  assert (Hne : tmp <> path) by congruence.
  rewrite bool_decide_true
    by (rewrite !lookup_insert_is_Some; right; split; [done|]; right; eauto).
  run_step. rewrite os_remove_run. cbn.
  rewrite !lookup_insert_ne, Hpath by done.
  by rewrite insert_insert_eq, <- app_assoc.
Qed.

(** ** [upload_file] *)

(** [upload_file] never changes the world.  It returns a URL only when the
    client is set and the file exists, and the URL is the public URL, the
    identifier and the file's base name, joined by slashes.  Without a
    client it raises before the file is looked at; every later failure,
    the missing file included, is raised again as "Failed to upload". *)
Theorem upload_file_outcomes E (file_path : string) (audio_id : value)
        (w w' : world) (r : outcome string) :
  upload_file E file_path audio_id w = (r, w') ->
  w' = w /\
  (forall url, r = Ok url ->
     s3_client E = true /\ is_Some (w_files w !! file_path) /\
     url = String.append (s3_public_url E)
             (String.append "/"
                (String.append (str_value E (w_heap w) audio_id)
                   (String.append "/" (basename file_path))))) /\
  (s3_client E = false ->
   exists msg, r = Raise (Raised "Exception" msg)) /\
  (s3_client E = true -> forall e, r = Raise e ->
   exists cause, e = Wrapped "Failed to upload to S3: " cause) /\
  (s3_client E = true -> w_files w !! file_path = None ->
   r = Raise (Wrapped "Failed to upload to S3: " FileNotFoundError)).
Proof.
  unfold upload_file. destruct (s3_client E); cbn [negb].
  - unfold try_except, bind, gets, ret, raise. cbn -[read_file].
    rewrite read_file_run.
    destruct (w_files w !! file_path) as [b|]; cbn.
    + destruct (upload_fileobj E b _) as [e|]; intros [= <- <-].
      * split; [done|]. split; [discriminate|]. split; [discriminate|].
        split; [|discriminate]. intros _ e0 [= <-]. eauto.
      * split; [done|]. split; [|split; [discriminate|split; discriminate]].
        intros url [= <-]. eauto.
    + intros [= <- <-]. split; [done|]. split; [discriminate|].
      split; [discriminate|]. split; [|done]. intros _ e0 [= <-]. eauto.
  - intros [= <- <-]. split; [done|]. split; [discriminate|].
    split; [eauto|]. split; discriminate.
Qed.

(** ** The arguments of the generator *)

Lemma py_get_pure obj k default (h : heap) r h' :
  py_get obj k default h = (r, h') -> h' = h.
Proof.
  unfold py_get, bind, deref, ret, raise.
  destruct obj; try (by intros [= _ <-]).
  destruct (h !! a); by intros [= _ <-].
Qed.





Lemma truthy_unsized v (h : heap) : unsized v = true -> truthy h v = truthy [] v.
Proof. by destruct v. Qed.

(** A [urls] value that is true for Python and has no length (a number,
    [true]) fails the request with a 500 before the generator is called. *)
Theorem unsized_urls_fail E (data : pydict) (w w' : world) (r : outcome response)
        (v : value) :
  generate_podcast_endpoint E data w = (r, w') ->
  dict_get "urls" data = Some v -> unsized v = true -> truthy [] v = true ->
  (exists e, r = Raise (HTTPExceptionOf 500 e)) /\
  List.filter is_generate (events_since w w') = [].
Proof.
  intros Hrun Hurls Hunsized Htruthy.
  assert (Hprep : forall h args h', prepare_request E data h <> (Ok args, h')).
  { intros h args h' H. unfold prepare_request in H.
    do 10 bind_inv H. bind_inv H. cbn zeta in H.
    apply bind_Ok_inv in H as (? & ? & Hsized & _).
    unfold data_get in Hsized. rewrite Hurls in Hsized.
    unfold gets in Hm9. injection Hm9 as <- <-.
    rewrite (truthy_unsized _ _ Hunsized), Htruthy in Hsized.
    by destruct v. }
  destruct (prepare_request E data (w_heap w)) as [[args|e] h1] eqn:Hp;
    [by destruct (Hprep _ _ _ Hp)|].
  destruct (generator_called_at_most_once_aux E data w r w' Hrun) as [_ Hnever].
  destruct (Hnever _ _ Hp) as [Hnone ->]. eauto.
Qed.

(** ** Failures before the disposition *)

Lemma endpoint_raised E data w e wt :
  endpoint_try E data w = (Raise e, wt) ->
  exists w',
    generate_podcast_endpoint E data w = (Raise (HTTPExceptionOf 500 e), w') /\
    w_heap w' = w_heap wt /\ w_files w' = w_files wt /\
    List.filter (fun ev => negb (is_status ev)) (events_since wt w') = [].
Proof.
  intros Htry. unfold generate_podcast_endpoint, try_except. rewrite Htry.
  destruct (endpoint_except_exact E data e wt) as (evs & -> & Hevs).
  eexists. split; [reflexivity|]. cbn. split; [done|]. split; [done|].
  rewrite (events_since_app wt _ evs) by done.
  destruct (truthy _ _); [by destruct Hevs as [rc ->]|by rewrite Hevs].
Qed.

(** When the generator raises, the request fails with a 500 that carries
    the generator's exception; after the generator returned, no file is
    touched and nothing but the status update is attempted. *)
Theorem generator_failure_surfaces
    E (data : pydict) (w w1 w2 : world) (args : gen_args) (e : exn) :
  lift (prepare_request E data) w = (Ok args, w1) ->
  call_generate E args w1 = (Raise e, w2) ->
  exists w',
    generate_podcast_endpoint E data w = (Raise (HTTPExceptionOf 500 e), w') /\
    w_files w' = w_files w2 /\
    List.filter (fun ev => negb (is_status ev)) (events_since w2 w') = [].
Proof.
  intros Hprep Hgen.
  assert (Htry : endpoint_try E data w = (Raise e, w2)).
  { unfold endpoint_try, bind. by rewrite Hprep, Hgen. }
  destruct (endpoint_raised _ _ _ _ _ Htry) as (w' & ? & _ & ? & ?). eauto.
Qed.

(** When the generator returns neither the path of an existing file nor
    an object with an [audio_path] ([None], or a string that names no
    file), the request fails with "Invalid result format"; no file is
    touched and nothing but the status update is attempted. *)
Theorem invalid_result_fails
    E (data : pydict) (w w1 w2 : world) (args : gen_args) (result : gen_result) :
  lift (prepare_request E data) w = (Ok args, w1) ->
  call_generate E args w1 = (Ok result, w2) ->
  result = GOther \/ (exists s, result = GStr s /\ w_files w2 !! s = None) ->
  exists w',
    generate_podcast_endpoint E data w
    = (Raise (HTTPExceptionOf 500 (HTTPException 500 "Invalid result format")), w') /\
    w_files w' = w_files w2 /\
    List.filter (fun ev => negb (is_status ev)) (events_since w2 w') = [].
Proof.
  intros Hprep Hgen Hresult.
  assert (Htry : endpoint_try E data w
                 = (Raise (HTTPException 500 "Invalid result format"), w2)).
  { unfold endpoint_try, bind. rewrite Hprep, Hgen.
    destruct Hresult as [->|(s & -> & Hs)]; [done|]. cbn.
    unfold bind, path_exists, gets.
    rewrite bool_decide_false; [done|]. rewrite Hs. by intros [? ?]. }
  destruct (endpoint_raised _ _ _ _ _ Htry) as (w' & ? & _ & ? & ?). eauto.
Qed.

(** * The storage classes *)

Lemma unset_false (value : option string) :
  unset value = false <-> exists s, value = Some s /\ s <> "".
Proof.
  destruct value as [s|]; cbn.
  - destruct (String.eqb_spec s "") as [->|Hne]; split; try done.
    + by intros (s' & [= <-] & Hne).
    + intros _. eauto.
  - split; [done|]. by intros (s & ? & _).
Qed.

Lemma missing_vars_nil required_vars :
  missing_vars required_vars = [] <->
  Forall (fun kv => unset (snd kv) = false) required_vars.
Proof.
  induction required_vars as [|[var value] rest IH]; cbn.
  - split; [constructor|done].
  - destruct (unset value) eqn:Hv.
    + split; [done|]. intros H. inversion H; subst. cbn in *. congruence.
    + rewrite IH. split; [by constructor|]. intros H. by inversion H.
Qed.

Lemma S3Storage_init_fields E O :
  s3_self_bucket (S3Storage_init E O) = getenv E "S3_PODCAST_BUCKET" /\
  s3_self_public_url (S3Storage_init E O) = getenv E "S3_PODCAST_PUBLIC_URL".
Proof.
  unfold S3Storage_init. cbv zeta.
  destruct (missing_vars _); [|done].
  destruct (boto3_client O _); [done|].
  by destruct (list_objects_v2 O _ _ _ _).
Qed.

(** [S3Storage()] has a client only if each of the six variables is set
    and not empty, [boto3.client] accepts them and the listing of the
    bucket that tests the connection succeeds; the client is made from
    the region, the endpoint and the two keys. *)
Theorem S3Storage_init_client E O (client : s3_client_args) :
  s3_self_client (S3Storage_init E O) = Some client ->
  Forall (fun name => exists v, getenv E name = Some v /\ v <> "") s3_variables /\
  client = {| region_name := getenv E "S3_PODCAST_REGION";
              endpoint_url := getenv E "S3_PODCAST_ENDPOINT";
              aws_access_key_id := getenv E "S3_PODCAST_ACCESS_KEY";
              aws_secret_access_key := getenv E "S3_PODCAST_SECRET_KEY" |} /\
  boto3_client O client = None /\
  exists listing,
    list_objects_v2 O client (getenv E "S3_PODCAST_BUCKET") None (Some 1)
    = Ok listing.
Proof.
  unfold S3Storage_init. cbv zeta.
  destruct (missing_vars _) eqn:Hmiss; [|done].
  apply missing_vars_nil in Hmiss. unfold s3_required_vars in Hmiss.
  destruct (boto3_client O _) eqn:Hboto; [done|].
  destruct (list_objects_v2 O _ _ _ _) as [listing|] eqn:Hlist; [|done].
  intros [= <-]. split; [|eauto].
  repeat (apply Forall_cons in Hmiss as [?%unset_false Hmiss]).
  unfold s3_variables. by repeat constructor.
Qed.

Lemma s3_check_connection_run E O self w :
  exists connected status,
    s3_check_connection E O self w = (Ok (connected, status), w) /\
    (connected = true <-> status = "connected") /\
    (connected = true <->
     exists client, s3_self_client self = Some client /\
                    head_bucket O client (s3_self_bucket self) = HeadOk) /\
    (s3_self_client self = None -> status = "not_configured") /\
    (forall client e,
       s3_self_client self = Some client ->
       head_bucket O client (s3_self_bucket self) = HeadClientError "404" e ->
       status = "bucket_not_found").
Proof.
  unfold s3_check_connection.
  destruct (s3_self_client self) as [client|].
  2:{ exists false, "not_configured". repeat (split; try done).
      by intros (? & ? & _). }
  destruct (head_bucket O client (s3_self_bucket self)) as [|code e|e] eqn:Hhead.
  - exists true, "connected". repeat (split; try done); eauto.
    intros ? ? [= <-]. by rewrite Hhead.
  - destruct (String.eqb_spec code "404") as [->|Hcode].
    + exists false, "bucket_not_found". repeat (split; try done).
      intros (? & [= <-] & ?). congruence.
    + eexists false, _. split; [reflexivity|]. repeat (split; try done).
      * intros (? & [= <-] & ?). congruence.
      * intros ? ? [= <-]. rewrite Hhead. by intros [= -> _].
  - eexists false, _. split; [reflexivity|]. repeat (split; try done).
    + intros (? & [= <-] & ?). congruence.
    + intros ? ? [= <-]. by rewrite Hhead.
Qed.

(** [S3Storage.check_connection] never raises and leaves the world alone.
    Its flag is true exactly when its status is ["connected"], which is
    exactly when there is a client and [head_bucket] succeeds; without a
    client the status is ["not_configured"], and on a [ClientError] with
    code 404 it is ["bucket_not_found"]. *)
Theorem s3_check_connection_report E O (self : S3Storage) (w : world) :
  exists connected status,
    s3_check_connection E O self w = (Ok (connected, status), w) /\
    (connected = true <-> status = "connected") /\
    (connected = true <->
     exists client, s3_self_client self = Some client /\
                    head_bucket O client (s3_self_bucket self) = HeadOk) /\
    (s3_self_client self = None -> status = "not_configured") /\
    (forall client e,
       s3_self_client self = Some client ->
       head_bucket O client (s3_self_bucket self) = HeadClientError "404" e ->
       status = "bucket_not_found").
Proof. apply s3_check_connection_run. Qed.

(** [S3Storage.delete_file] leaves the world alone.  Without a client it
    raises; with one it never raises, and answers false exactly when the
    listing of the prefix [audio_id/] fails or the deletion of the listed
    keys, of which there is at least one, fails. *)
Theorem s3_delete_file_outcomes E O (self : S3Storage) (audio_id : string)
        (w w' : world) (r : outcome bool) :
  s3_delete_file E O self audio_id w = (r, w') ->
  w' = w /\
  match s3_self_client self with
  | None => r = Raise (s3_not_initialized E self)
  | Some client =>
      let listing := list_objects_v2 O client (s3_self_bucket self)
                       (Some (String.append audio_id "/")) None in
      exists deleted : bool,
        r = Ok deleted /\
        (deleted = false <->
         (exists e, listing = Raise e) \/
         (exists keys e,
            listing = Ok (Some keys) /\ keys <> [] /\
            delete_objects O client (s3_self_bucket self) keys = Some e))
  end.
Proof.
  unfold s3_delete_file. destruct (s3_self_client self) as [client|].
  2:{ by intros [= <- <-]. }
  unfold try_except, bind, of_outcome, ret, raise. cbv zeta.
  destruct (list_objects_v2 O client _ _ _) as [[[|k keys]|]|e] eqn:Hlist.
  - intros [= <- <-]. split; [done|]. exists true. split; [done|].
    split; [done|]. intros [(? & [=])|(? & ? & [= <-] & ? & _)]. done.
  - destruct (delete_objects O client _ _) as [e|] eqn:Hdel; intros [= <- <-].
    + split; [done|]. exists false. split; [done|]. split; [|done].
      intros _. right. by exists (k :: keys), e.
    + split; [done|]. exists true. split; [done|]. split; [done|].
      intros [(? & [=])|(? & ? & [= <-] & _ & ?)]. congruence.
  - intros [= <- <-]. split; [done|]. exists true. split; [done|].
    split; [done|]. intros [(? & [=])|(? & ? & [=] & _)].
  - intros [= <- <-]. split; [done|]. exists false. split; [done|].
    split; [|done]. intros _. left. eauto.
Qed.

(** When all six variables are set and the client could still not be made
    (the endpoint refused the test listing, say), [delete_file] raises an
    exception whose message blames missing variables and names none. *)
Theorem s3_not_initialized_names_nothing E O (audio_id : string) (w : world) :
  Forall (fun name => unset (getenv E name) = false) s3_variables ->
  s3_self_client (S3Storage_init E O) = None ->
  s3_delete_file E O (S3Storage_init E O) audio_id w
  = (Raise (Raised "Exception"
              "S3 client not initialized. Missing environment variables: "), w).
Proof.
  intros Hvars Hnone. unfold s3_delete_file, s3_not_initialized. rewrite Hnone.
  destruct (S3Storage_init_fields E O) as [-> ->].
  unfold s3_variables in Hvars.
  repeat (apply Forall_cons in Hvars as [? Hvars]).
  assert (Hmiss : missing_vars (s3_required_vars E (getenv E "S3_PODCAST_BUCKET")
                                  (getenv E "S3_PODCAST_PUBLIC_URL")) = []).
  { apply missing_vars_nil. unfold s3_required_vars. by repeat constructor. }
  by rewrite Hmiss.
Qed.

(** [SupabaseClient()] has a client exactly when [SUPABASE_URL] and
    [SUPABASE_KEY] are set and not empty and [create_client] accepts
    them; [SUPABASE_ANON_KEY] is read and plays no part. *)
Theorem SupabaseClient_init_client E O :
  is_Some (sb_self_client (SupabaseClient_init E O)) <->
  (exists url, getenv E "SUPABASE_URL" = Some url /\ url <> "") /\
  (exists key, getenv E "SUPABASE_KEY" = Some key /\ key <> "") /\
  create_client O (getenv E "SUPABASE_URL") (getenv E "SUPABASE_KEY") = None.
Proof.
  unfold SupabaseClient_init. cbv zeta. rewrite <- !unset_false. cbn [missing_vars].
  destruct (unset (getenv E "SUPABASE_URL")), (unset (getenv E "SUPABASE_KEY"));
    cbn; try (split; [by intros [? [=]]|by intros (? & ? & _)]).
  destruct (create_client O _ _); cbn.
  - split; [by intros [? [=]]|by intros (_ & _ & [=])].
  - split; [done|eauto].
Qed.

Lemma supabase_check_connection_run E O self w :
  exists connected status,
    supabase_check_connection E O self w = (Ok (connected, status), w) /\
    (connected = true <-> status = "connected") /\
    (connected = true <->
     is_Some (sb_self_client self) /\ select_probe O = None) /\
    (sb_self_client self = None -> status = "not_configured").
Proof.
  unfold supabase_check_connection.
  destruct (sb_self_client self) as [client|].
  2:{ exists false, "not_configured". repeat (split; try done).
      by intros [[? [=]] _]. }
  destruct (select_probe O) as [e|].
  - eexists false, _. split; [reflexivity|]. repeat (split; try done).
    by intros [_ [=]].
  - exists true, "connected". repeat (split; try done); eauto.
Qed.

(** [SupabaseClient.check_connection] never raises and leaves the world
    alone; its flag is true exactly when its status is ["connected"],
    which is exactly when there is a client and the query on the
    [podcasts] table succeeds. *)
Theorem supabase_check_connection_report E O (self : SupabaseClient) (w : world) :
  exists connected status,
    supabase_check_connection E O self w = (Ok (connected, status), w) /\
    (connected = true <-> status = "connected") /\
    (connected = true <->
     is_Some (sb_self_client self) /\ select_probe O = None) /\
    (sb_self_client self = None -> status = "not_configured").
Proof. apply supabase_check_connection_run. Qed.

(** * The health check *)

Lemma write_text_run O p t w :
  write_text O p t w =
    match open_for_writing O p with
    | Some e => (Raise e, w)
    | None => (Ok tt, {| w_heap := w_heap w;
                         w_files := <[p := bytes_of_text t]> (w_files w);
                         w_trace := w_trace w ++ [EvCreate p] |})
    end.
Proof. unfold write_text. by destruct (open_for_writing O p). Qed.

(** The four ways a health check can go *)
Lemma healthcheck_cases E O s3 sb w :
  let after := {| w_heap := w_heap w;
                  w_files := delete (health_file O) (w_files w);
                  w_trace := w_trace w ++ [EvCreate (health_file O);
                                           EvRemove (health_file O)] |} in
  (exists e, temp_dir_exists O = false /\ makedirs O = Some e /\
             healthcheck E O s3 sb w = (Raise (HTTPExceptionOf 500 e), w)) \/
  (exists e, open_for_writing O (health_file O) = Some e /\
             healthcheck E O s3 sb w = (Raise (HTTPExceptionOf 500 e), w)) \/
  (exists e, getcwd O = Raise e /\
             healthcheck E O s3 sb w = (Raise (HTTPExceptionOf 500 e), after)) \/
  (exists cwd s3_ok s3_status sb_ok sb_status,
     (temp_dir_exists O = false -> makedirs O = None) /\
     open_for_writing O (health_file O) = None /\
     getcwd O = Ok cwd /\
     s3_check_connection E O s3 after = (Ok (s3_ok, s3_status), after) /\
     supabase_check_connection E O sb after = (Ok (sb_ok, sb_status), after) /\
     healthcheck E O s3 sb w
     = (Ok {| hr_status := "healthy";
              hr_temp_dir := temp_dir O;
              hr_temp_dir_writable := true;
              hr_s3_status := s3_status;
              hr_supabase_status := sb_status;
              hr_python_version := sys_version O;
              hr_working_directory := cwd;
              hr_environment_variables :=
                map (fun name => (name, negb (unset (getenv E name))))
                    reported_variables |}, after)).
Proof.
  intros after.
  destruct (s3_check_connection_run E O s3 after)
    as (s3_ok & s3_status & Hs3 & _).
  destruct (supabase_check_connection_run E O sb after)
    as (sb_ok & sb_status & Hsb & _).
  assert (Hdir : (temp_dir_exists O = false /\ exists e, makedirs O = Some e) \/
                 (temp_dir_exists O = false -> makedirs O = None)).
  { destruct (temp_dir_exists O); [by right|].
    destruct (makedirs O); [left; eauto|by right]. }
  destruct Hdir as [[Hexists [e Hmake]]|Hdir].
  { left. exists e. repeat (split; [done|]).
    unfold healthcheck, try_except, bind. by rewrite Hexists, Hmake. }
  right.
  assert (Hfirst :
    (if negb (temp_dir_exists O)
     then match makedirs O with Some e => raise e | None => ret tt end
     else ret tt) w = (Ok tt, w)).
  { destruct (temp_dir_exists O); [done|]. by rewrite Hdir. }
  assert (Hrun :
    healthcheck E O s3 sb w
    = match open_for_writing O (health_file O) with
      | Some e => (Raise (HTTPExceptionOf 500 e), w)
      | None =>
          match getcwd O with
          | Raise e => (Raise (HTTPExceptionOf 500 e), after)
          | Ok cwd =>
              (Ok {| hr_status := "healthy";
                     hr_temp_dir := temp_dir O;
                     hr_temp_dir_writable := true;
                     hr_s3_status := s3_status;
                     hr_supabase_status := sb_status;
                     hr_python_version := sys_version O;
                     hr_working_directory := cwd;
                     hr_environment_variables :=
                       map (fun name => (name, negb (unset (getenv E name))))
                           reported_variables |}, after)
          end
      end).
  { unfold healthcheck, try_except. unfold bind at 1. rewrite Hfirst.
    cbv zeta. fold (health_file O). unfold bind at 1. rewrite write_text_run.
    destruct (open_for_writing O (health_file O)); [done|].
    unfold bind at 1. rewrite os_remove_run. cbn [w_files w_heap w_trace].
    rewrite lookup_insert_eq, delete_insert_eq, <- app_assoc.
    change ([EvCreate (health_file O)] ++ [EvRemove (health_file O)])
      with [EvCreate (health_file O); EvRemove (health_file O)].
    fold after. unfold bind at 1. rewrite Hs3. unfold bind at 1. rewrite Hsb.
    unfold bind, of_outcome, ret, raise. by destruct (getcwd O). }
  rewrite Hrun.
  destruct (open_for_writing O (health_file O)) as [e|] eqn:Hopen.
  { left. by exists e. }
  right. destruct (getcwd O) as [cwd|e] eqn:Hcwd.
  - right. by exists cwd, s3_ok, s3_status, sb_ok, sb_status.
  - left. by exists e.
Qed.

(** Whatever the object store and the status store are and answer, the
    health check succeeds when the temporary directory takes the test file
    and the working directory can be read: the report says ["healthy"] and
    carries the two stores' statuses, and the test file is gone. *)
Theorem healthcheck_ignores_the_stores
    E O (s3 : S3Storage) (sb : SupabaseClient) (w : world) (cwd : string) :
  (temp_dir_exists O = false -> makedirs O = None) ->
  open_for_writing O (health_file O) = None ->
  getcwd O = Ok cwd ->
  exists report,
    healthcheck E O s3 sb w
    = (Ok report,
       {| w_heap := w_heap w;
          w_files := delete (health_file O) (w_files w);
          w_trace := w_trace w ++ [EvCreate (health_file O);
                                   EvRemove (health_file O)] |}) /\
    hr_status report = "healthy" /\
    hr_temp_dir_writable report = true /\
    hr_working_directory report = cwd /\
    (hr_s3_status report = "connected" <->
     exists client, s3_self_client s3 = Some client /\
                    head_bucket O client (s3_self_bucket s3) = HeadOk) /\
    (hr_supabase_status report = "connected" <->
     is_Some (sb_self_client sb) /\ select_probe O = None).
Proof.
  intros Hdir Hopen Hcwd.
  destruct (healthcheck_cases E O s3 sb w)
    as [(e & Hexists & Hmake & _)|[(e & He & _)|[(e & He & _)|H]]].
  - rewrite (Hdir Hexists) in Hmake. discriminate.
  - congruence.
  - congruence.
  - destruct H as (cwd' & s3_ok & s3_status & sb_ok & sb_status
                   & _ & _ & Hcwd' & Hs3 & Hsb & ->).
    eexists. split; [reflexivity|]. cbn.
    split; [done|]. split; [done|]. split; [congruence|].
    match type of Hs3 with _ ?after = _ => set (w1 := after) in * end.
    destruct (s3_check_connection_run E O s3 w1)
      as (c1 & st1 & Hs3' & Hiff1 & Hiff1' & _).
    destruct (supabase_check_connection_run E O sb w1)
      as (c2 & st2 & Hsb' & Hiff2 & Hiff2' & _).
    rewrite Hs3 in Hs3'. injection Hs3' as <- <-.
    rewrite Hsb in Hsb'. injection Hsb' as <- <-.
    split; [by rewrite <- Hiff1|by rewrite <- Hiff2].
Qed.

(** A health check fails only with a 500, and only for the host: the
    temporary directory cannot be made, the test file cannot be opened
    (the file system is then as it was), or the working directory cannot
    be read (the test file is then already removed).  No answer of the
    stores makes it fail. *)
Theorem healthcheck_fails_for_the_host_only
    E O (s3 : S3Storage) (sb : SupabaseClient) (w w' : world) (x : exn) :
  healthcheck E O s3 sb w = (Raise x, w') ->
  exists e,
    x = HTTPExceptionOf 500 e /\
    ((temp_dir_exists O = false /\ makedirs O = Some e /\ w' = w) \/
     (open_for_writing O (health_file O) = Some e /\ w' = w) \/
     (getcwd O = Raise e /\
      w_files w' = delete (health_file O) (w_files w))).
Proof.
  intros Hrun.
  destruct (healthcheck_cases E O s3 sb w)
    as [(e & Hexists & Hmake & H)|[(e & He & H)|[(e & He & H)|H]]].
  - rewrite H in Hrun. injection Hrun as <- <-. exists e. split; [done|]. by left.
  - rewrite H in Hrun. injection Hrun as <- <-. exists e. split; [done|].
    right. by left.
  - rewrite H in Hrun. injection Hrun as <- <-. exists e. split; [done|].
    right. by right.
  - destruct H as (? & ? & ? & ? & ? & _ & _ & _ & _ & _ & H).
    rewrite H in Hrun. discriminate.
Qed.



(** * The object store and the request *)

(** Without a client for the object store, no request with a (true)
    [podcast_id] is answered: each one fails with a 500. *)
Theorem podcast_id_needs_object_store
    E (data : pydict) (w w' : world) (r : outcome response) :
  s3_client E = false ->
  generate_podcast_endpoint E data w = (r, w') ->
  truthy (w_heap w') (get_podcast_id data) = true ->
  exists e, r = Raise (HTTPExceptionOf 500 e).
Proof.
  intros Hclient Hrun Hpid. destruct r as [resp|x].
  - exfalso.
    apply endpoint_ok in Hrun
      as (args & w1 & result & w2 & path & _ & _ & _ & Hdeliver).
    pose proof (deliver_trace _ _ _ _ _ _ Hdeliver) as [Hheap _].
    pose proof (deliver_run E data path w2) as H. cbn zeta in H.
    rewrite <- Hheap, Hpid in H.
    destruct H as (awi & w3 & md & _ & _ & _ & Hup).
    assert (Hraise : exists e, upload_file E awi (get_podcast_id data) w3
                               = (Raise e, w3)).
    { unfold upload_file. rewrite Hclient. by eexists. }
    destruct Hraise as [e Hraise]. rewrite Hraise in Hup.
    rewrite Hup in Hdeliver. discriminate.
  - apply endpoint_run in Hrun as (rt & wt & _ & Hr).
    destruct rt as [resp|e]; [by destruct Hr|]. exists e.
    destruct Hr as [Hr _]. congruence.
Qed.

(** * Audio post-processing, case by case *)

Lemma table_get_in (ext : string) :
  In (table_get ext content_type_map "audio/mpeg")
     ["audio/mpeg"; "audio/wav"; "audio/mp4"; "audio/aac"; "audio/ogg"].
Proof.
  unfold content_type_map, table_get.
  repeat match goal with
         | |- context [String.eqb ext ?k] => destruct (String.eqb ext k)
         end; cbn; tauto.
Qed.

(** [getAudioMetadata] answers without touching the world.  Its content
    type is always one of the five of the table; for a file that is not
    there, or that the codec cannot decode, the length and the size are
    empty and the type is [audio/mpeg]; for a file that decodes, the size
    is its number of bytes and the length its whole seconds. *)
Theorem getAudioMetadata_cases E (path : string) (w : world) :
  exists md,
    getAudioMetadata E path w = (Ok md, w) /\
    In (audio_content_type md)
       ["audio/mpeg"; "audio/wav"; "audio/mp4"; "audio/aac"; "audio/ogg"] /\
    (w_files w !! path = None \/
     (exists content e, w_files w !! path = Some content /\
                        from_file E path content = Raise e) ->
     md = {| audio_length := ""; audio_file_size := "";
             audio_content_type := "audio/mpeg" |}) /\
    (forall content audio,
       w_files w !! path = Some content ->
       from_file E path content = Ok audio ->
       audio_file_size md = str_int (Z.of_nat (List.length content)) /\
       audio_length md = str_int (Z.quot (millis audio) 1000) /\
       audio_content_type md
       = table_get (lower (splitext_ext path)) content_type_map "audio/mpeg").
Proof.
  unfold getAudioMetadata, audio_from_file, bind, try_except, of_outcome, ret.
  rewrite read_file_run.
  destruct (w_files w !! path) as [content|] eqn:Hpath.
  2:{ eexists. split; [reflexivity|]. cbn. split; [tauto|]. split; [done|].
      intros ? ? [=]. }
  destruct (from_file E path content) as [audio|e] eqn:Hfile.
  - rewrite read_file_run, Hpath. eexists. split; [reflexivity|].
    cbn [audio_content_type audio_file_size audio_length].
    split; [apply table_get_in|]. split.
    + intros [[=]|(c & e & [= <-] & He)]. congruence.
    + intros c a [= <-] Ha. rewrite Hfile in Ha. by injection Ha as <-.
  - eexists. split; [reflexivity|]. cbn. split; [tauto|]. split; [done|].
    intros c a [= <-] Ha. congruence.
Qed.

(** When the encoding of the combined audio fails, [addIntroToAudio] hands
    back the original path and keeps the original file, and the temporary
    file it had made stays on disk, empty. *)
Theorem addIntroToAudio_failed_export_leaves_empty_file
    E (path tmp : string) (w : world) (intro_bytes podcast_bytes : bytes)
    (intro podcast combined : AudioSegment) (e : exn) :
  w_files w !! intro_path E = Some intro_bytes ->
  from_wav E intro_bytes = Ok intro ->
  w_files w !! path = Some podcast_bytes ->
  from_file E path podcast_bytes = Ok podcast ->
  audio_add E intro podcast = Ok combined ->
  named_temporary_file E (w_files w) = Ok tmp ->
  audio_export E combined "mp3" = Raise e ->
  addIntroToAudio E path w
  = (Ok path,
     {| w_heap := w_heap w;
        w_files := <[tmp := []]> (w_files w);
        w_trace := w_trace w ++ [EvCreate tmp] |}).
Proof.
  intros Hintro Hi Hpath Hp Hc Htmp Hexport.
  unfold addIntroToAudio, audio_from_file, path_exists, bind, try_except,
    gets, of_outcome, ret, set_files, log, modify.
  rewrite bool_decide_true by eauto. run_step.
  rewrite read_file_run, Hintro. run_step. rewrite Hi.
  rewrite read_file_run, Hpath. run_step. rewrite Hp, Hc, Htmp, Hexport.
  reflexivity.
Qed.

(** With temporary names that are fresh, [addIntroToAudio] on a file that
    is there hands back a file that is there; it is either the original,
    or a new file, and then the original is gone. *)
Theorem addIntroToAudio_returns_existing_file
    E (path p : string) (w w' : world) :
  (forall tmp, named_temporary_file E (w_files w) = Ok tmp ->
               w_files w !! tmp = None) ->
  is_Some (w_files w !! path) ->
  addIntroToAudio E path w = (Ok p, w') ->
  is_Some (w_files w' !! p) /\
  ((p = path /\ w_files w' !! path = w_files w !! path) \/
   (p <> path /\ w_files w !! p = None /\ w_files w' !! path = None)).
Proof.
  intros Hfresh [pb0 Hpath0]. rewrite Hpath0.
  assert (Hsame : forall q w0, (Ok path, w) = (Ok q, w0) ->
            is_Some (w_files w0 !! q) /\
            ((q = path /\ w_files w0 !! path = Some pb0) \/
             (q <> path /\ w_files w !! q = None /\ w_files w0 !! path = None))).
  { intros q w0 [= <- <-]. split; [eauto|]. by left. }
  unfold addIntroToAudio, audio_from_file, path_exists, bind, try_except,
    gets, of_outcome, ret, set_files, log, modify.
  destruct (bool_decide _); run_step; [|apply Hsame].
  rewrite read_file_run.
  destruct (w_files w !! intro_path E) as [ib|]; run_step; [|apply Hsame].
  destruct (from_wav E ib) as [intro|?]; run_step; [|apply Hsame].
  rewrite read_file_run, Hpath0. run_step.
  destruct (from_file E path pb0) as [podcast|?]; run_step; [|apply Hsame].
  destruct (audio_add E intro podcast) as [combined|?]; run_step; [|apply Hsame].
  destruct (named_temporary_file E (w_files w)) as [tmp|?] eqn:Htmp; run_step;
    [|apply Hsame].
  pose proof (Hfresh _ eq_refl) as Hnew.
  assert (Hne : tmp <> path) by congruence.
  destruct (audio_export E combined "mp3") as [encoded|?]; run_step.
  2:{ intros [= <- <-]. cbn. rewrite lookup_insert_ne by done.
      split; [eauto|]. by left. }
  rewrite bool_decide_true
    by (rewrite !lookup_insert_is_Some; right; split; [done|]; right; eauto).
  run_step. rewrite os_remove_run. cbn.
  rewrite !lookup_insert_ne, Hpath0 by done. intros [= <- <-]. cbn.
  rewrite lookup_delete_ne, lookup_insert_eq by done.
  split; [eauto|]. right. split; [done|]. split; [done|]. apply lookup_delete_eq.
Qed.

(** * More runs of the sample deployments *)

Ltac nodup_strings :=
  repeat (constructor; [cbn; intuition discriminate|]); constructor.

Lemma failure_reported_once_witness :
  exists e rc,
    fst (sample_run (sample_env None false true) (sample_data (Some "p1")))
    = Raise (HTTPExceptionOf 500 e) /\
    List.filter is_status
      (events_since sample_world
         (snd (sample_run (sample_env None false true) (sample_data (Some "p1")))))
    = [EvUpdateStatus (VStr "p1") "failed" e rc].
Proof.
  pose proof (failure_reported_once (sample_env None false true)
                (sample_data (Some "p1")) sample_world _ _
                (surjective_pairing _)) as H.
  vm_compute in H. destruct H as (e & He & rc & Hrc).
  exists e, rc. split; vm_compute; [exact (f_equal Raise He)|exact Hrc].
Defined.

Lemma generator_called_at_most_once_witness :
  (List.length
     (List.filter is_generate
        (events_since sample_world
           (snd (sample_run (sample_env None true true) (sample_data None)))))
   <= 1)%nat.
Proof.
  exact (proj1 (generator_called_at_most_once (sample_env None true true)
                  (sample_data None) sample_world _ _ (surjective_pairing _))).
Defined.

Lemma no_store_write_without_podcast_id_witness :
  List.filter is_store_write
    (events_since sample_world
       (snd (sample_run (sample_env None true true) (sample_data None))))
  = [].
Proof.
  apply (no_store_write_without_podcast_id (sample_env None true true)
           (sample_data None) sample_world _
           (fst (sample_run (sample_env None true true) (sample_data None)))).
  - apply surjective_pairing.
  - vm_compute. reflexivity.
Defined.

Lemma merge_configs_rejects_scalar_tts_witness :
  exists h',
    merge_configs (fun d _ => (d, Some TypeError)) 0%nat 1%nat null_tts_heap
    = (Raise AttributeError, h') /\
    forall a, (a < List.length null_tts_heap)%nat -> h' !! a = null_tts_heap !! a.
Proof.
  apply (merge_configs_rejects_scalar_tts (fun d _ => (d, Some TypeError))
           null_tts_heap 0%nat 1%nat
           [("text_to_speech", VNone); ("creativity", VInt 0)]
           [("text_to_speech", VDict 2%nat)] VNone (VDict 2%nat)).
  - reflexivity.
  - reflexivity.
  - reflexivity.
  - discriminate.
  - reflexivity.
Defined.

Lemma auth_accepts_matching_token_witness :
  verify_token (sample_env (Some "s3cret") true true)
    (sample_request (Some "s3cret"))
    (fun req => generate_podcast_endpoint (sample_env (Some "s3cret") true true)
                  (body req))
  = generate_podcast_endpoint (sample_env (Some "s3cret") true true)
      (sample_data None).
Proof.
  apply (auth_accepts_matching_token (sample_env (Some "s3cret") true true)
           (sample_request (Some "s3cret"))
           (fun req => generate_podcast_endpoint
                         (sample_env (Some "s3cret") true true) (body req))
           "s3cret").
  - reflexivity.
  - reflexivity.
  - discriminate.
Defined.

Lemma auth_rejects_all_with_empty_secret_witness :
  verify_token (sample_env (Some "") true true) (sample_request (Some ""))
    (fun req => generate_podcast_endpoint (sample_env (Some "") true true)
                  (body req))
    sample_world
  = (Ok unauthorized, sample_world).
Proof.
  apply (auth_rejects_all_with_empty_secret (sample_env (Some "") true true)
           (sample_request (Some ""))).
  - reflexivity.
  - discriminate.
Defined.

Lemma addIntroToAudio_prepends_intro_witness :
  addIntroToAudio (sample_env None true true) "/tmp/podcast.mp3"
    sample_world_generated
  = (Ok "/app/temp_audio/tmpab12.mp3",
     {| w_heap := [];
        w_files :=
          delete "/tmp/podcast.mp3"
            (<["/app/temp_audio/tmpab12.mp3" :=
                 ["R"; "I"; "F"; "F"; "I"; "D"; "3"]%byte]>
               (w_files sample_world_generated));
        w_trace := [EvCreate "/app/temp_audio/tmpab12.mp3";
                    EvRemove "/tmp/podcast.mp3"] |}).
Proof.
  apply (addIntroToAudio_prepends_intro (sample_env None true true)
           "/tmp/podcast.mp3" "/app/temp_audio/tmpab12.mp3"
           sample_world_generated ["R"; "I"; "F"; "F"; "I"; "D"; "3"]%byte).
  - vm_compute. reflexivity.
  - reflexivity.
  - vm_compute. reflexivity.
Defined.

Lemma upload_file_outcomes_witness :
  exists msg,
    fst (upload_file (sample_env_with [] sample_generated false)
           "/tmp/podcast.mp3" (VStr "p1") sample_world_generated)
    = Raise (Raised "Exception" msg).
Proof.
  destruct (upload_file_outcomes (sample_env_with [] sample_generated false)
              "/tmp/podcast.mp3" (VStr "p1") sample_world_generated _ _
              (surjective_pairing _)) as (_ & _ & Hnone & _).
  exact (Hnone eq_refl).
Defined.


Lemma unsized_urls_fail_witness :
  (exists e,
     fst (sample_run (sample_env None true true) (sample_request_data (VInt 5)))
     = Raise (HTTPExceptionOf 500 e)) /\
  List.filter is_generate
    (events_since sample_world
       (snd (sample_run (sample_env None true true) (sample_request_data (VInt 5)))))
  = [].
Proof.
  apply (unsized_urls_fail (sample_env None true true)
           (sample_request_data (VInt 5)) sample_world _ _ (VInt 5)).
  - apply surjective_pairing.
  - reflexivity.
  - reflexivity.
  - reflexivity.
Defined.

Lemma generator_failure_surfaces_witness :
  exists w2 w',
    generate_podcast_endpoint
      (sample_env_with [] (Raise (Raised "RuntimeError" "quota exceeded"), []) true)
      (sample_data (Some "p1")) sample_world
    = (Raise (HTTPExceptionOf 500 (Raised "RuntimeError" "quota exceeded")), w') /\
    w_files w' = w_files w2 /\
    List.filter (fun ev => negb (is_status ev)) (events_since w2 w') = [].
Proof.
  eexists. eapply generator_failure_surfaces.
  - vm_compute. reflexivity.
  - vm_compute. reflexivity.
Defined.

Lemma invalid_result_fails_witness :
  exists w2 w',
    generate_podcast_endpoint (sample_env_with [] (Ok GOther, []) true)
      (sample_data (Some "p1")) sample_world
    = (Raise (HTTPExceptionOf 500 (HTTPException 500 "Invalid result format")), w') /\
    w_files w' = w_files w2 /\
    List.filter (fun ev => negb (is_status ev)) (events_since w2 w') = [].
Proof.
  eexists. eapply (invalid_result_fails _ _ _ _ _ _ GOther).
  - vm_compute. reflexivity.
  - vm_compute. reflexivity.
  - by left.
Defined.

Lemma merge_configs_without_common_tts_witness :
  exists Mg,
    merge_configs (fun d _ => (d, Some TypeError)) 0%nat 1%nat empty_base_heap
    = (Ok (List.length empty_base_heap), empty_base_heap ++ [Mg]) /\
    dict_get "text_to_speech" Mg = None.
Proof.
  destruct (merge_configs_without_common_tts (fun d _ => (d, Some TypeError))
              empty_base_heap 0%nat 1%nat []
              [("text_to_speech", VDict 2%nat); ("creativity", VInt 1)])
    as (Mg & Hrun & Htts & _).
  - reflexivity.
  - reflexivity.
  - by left.
  - nodup_strings.
  - exists Mg. by split.
Defined.

Lemma merge_configs_overlays_tts_witness :
  exists h' TB',
    merge_configs (fun d _ => (d, Some TypeError)) 0%nat 2%nat both_tts_heap
    = (Ok (List.length both_tts_heap), h') /\
    h' !! 1%nat = Some TB' /\
    dict_get "model" TB' = Some (VStr "override-model").
Proof.
  destruct (merge_configs_overlays_tts (fun d _ => (d, Some TypeError))
              both_tts_heap 0%nat 2%nat 1%nat 3%nat
              [("text_to_speech", VDict 1%nat)] [("text_to_speech", VDict 3%nat)]
              [("model", VStr "base-model")] [("model", VStr "override-model")])
    as (h' & Mg & TB' & Hrun & _ & _ & Hblock & Hkeys & _).
  - reflexivity.
  - reflexivity.
  - reflexivity.
  - reflexivity.
  - reflexivity.
  - reflexivity.
  - discriminate.
  - nodup_strings.
  - nodup_strings.
  - exists h', TB'. split; [exact Hrun|]. split; [exact Hblock|].
    exact (Hkeys "model").
Defined.

Lemma no_path_removed_twice_witness :
  List.NoDup
    (removed
       (events_since sample_world
          (snd (sample_run (sample_env None true true) (sample_data (Some "p1")))))).
Proof.
  exact (no_path_removed_twice (sample_env None true true)
           (sample_data (Some "p1")) sample_world _ _ (surjective_pairing _)).
Defined.

Lemma result_file_removed_on_success_witness :
  exists args w1 result w2 path,
    lift (prepare_request (sample_env None true true) (sample_data None))
      sample_world = (Ok args, w1) /\
    call_generate (sample_env None true true) args w1 = (Ok result, w2) /\
    (result = GStr path \/ result = GObj path) /\
    w_files (snd (sample_run (sample_env None true true) (sample_data None)))
      !! path = None.
Proof.
  apply (result_file_removed_on_success (sample_env None true true)
           (sample_data None) sample_world
           (snd (sample_run (sample_env None true true) (sample_data None)))
           (Response ["I"; "D"; "3"]%byte "audio/mpeg"
              [("Content-Type", "audio/mpeg"); ("Content-Length", "3")])).
  vm_compute. reflexivity.
Defined.

Lemma S3Storage_init_client_witness :
  Forall (fun name =>
            exists v, getenv (sample_env_with sample_vars sample_generated true) name
                      = Some v /\ v <> "")
         s3_variables.
Proof.
  exact (proj1 (S3Storage_init_client
                  (sample_env_with sample_vars sample_generated true)
                  (sample_outside HeadOk (Ok None) None true)
                  {| region_name := Some "gra";
                     endpoint_url := Some "https://s3.example";
                     aws_access_key_id := Some "ak";
                     aws_secret_access_key := Some "sk" |}
                  eq_refl)).
Defined.

Lemma s3_delete_file_outcomes_witness :
  exists deleted,
    fst (s3_delete_file (sample_env_with sample_vars sample_generated true)
           (sample_outside HeadOk (Ok (Some ["p1/podcast.mp3"])) None true)
           (S3Storage_init (sample_env_with sample_vars sample_generated true)
              (sample_outside HeadOk (Ok (Some ["p1/podcast.mp3"])) None true))
           "p1" sample_world)
    = Ok deleted.
Proof.
  destruct (s3_delete_file_outcomes
              (sample_env_with sample_vars sample_generated true)
              (sample_outside HeadOk (Ok (Some ["p1/podcast.mp3"])) None true)
              (S3Storage_init (sample_env_with sample_vars sample_generated true)
                 (sample_outside HeadOk (Ok (Some ["p1/podcast.mp3"])) None true))
              "p1" sample_world _ _ (surjective_pairing _)) as [_ H].
  vm_compute in H. destruct H as (deleted & Hd & _).
  exists deleted. vm_compute. exact Hd.
Defined.

Lemma s3_not_initialized_names_nothing_witness :
  s3_delete_file (sample_env_with sample_vars sample_generated true)
    (sample_outside HeadOk (Raise (Raised "ClientError" "AccessDenied")) None true)
    (S3Storage_init (sample_env_with sample_vars sample_generated true)
       (sample_outside HeadOk (Raise (Raised "ClientError" "AccessDenied")) None true))
    "p1" sample_world
  = (Raise (Raised "Exception"
              "S3 client not initialized. Missing environment variables: "),
     sample_world).
Proof.
  apply (s3_not_initialized_names_nothing
           (sample_env_with sample_vars sample_generated true)
           (sample_outside HeadOk (Raise (Raised "ClientError" "AccessDenied"))
              None true)
           "p1" sample_world).
  - repeat constructor.
  - reflexivity.
Defined.

Lemma healthcheck_ignores_the_stores_witness :
  exists report,
    fst (healthcheck (sample_env_with [] sample_generated false)
           (sample_outside (HeadError (Raised "EndpointConnectionError" "down"))
              (Ok None) (Some (Raised "APIError" "down")) true)
           {| s3_self_client := None; s3_self_bucket := None;
              s3_self_public_url := None |}
           {| sb_self_client := Some (Some "https://db.example", Some "service");
              sb_self_url := Some "https://db.example";
              sb_self_anon_key := None;
              sb_self_service_key := Some "service" |}
           sample_world)
    = Ok report /\
    hr_status report = "healthy".
Proof.
  destruct (healthcheck_ignores_the_stores
              (sample_env_with [] sample_generated false)
              (sample_outside (HeadError (Raised "EndpointConnectionError" "down"))
                 (Ok None) (Some (Raised "APIError" "down")) true)
              {| s3_self_client := None; s3_self_bucket := None;
                 s3_self_public_url := None |}
              {| sb_self_client := Some (Some "https://db.example", Some "service");
                 sb_self_url := Some "https://db.example";
                 sb_self_anon_key := None;
                 sb_self_service_key := Some "service" |}
              sample_world "/app")
    as (report & Hrun & Hstatus & _).
  - discriminate.
  - reflexivity.
  - reflexivity.
  - exists report. split; [by rewrite Hrun|exact Hstatus].
Defined.

Lemma healthcheck_fails_for_the_host_only_witness :
  exists e,
    fst (healthcheck (sample_env_with sample_vars sample_generated true)
           (sample_outside HeadOk (Ok None) None false)
           (S3Storage_init (sample_env_with sample_vars sample_generated true)
              (sample_outside HeadOk (Ok None) None false))
           (SupabaseClient_init (sample_env_with sample_vars sample_generated true)
              (sample_outside HeadOk (Ok None) None false))
           sample_world)
    = Raise (HTTPExceptionOf 500 e) /\
    open_for_writing (sample_outside HeadOk (Ok None) None false)
      "/app/temp_audio/health_check.txt" = Some e.
Proof.
  destruct (healthcheck_fails_for_the_host_only
              (sample_env_with sample_vars sample_generated true)
              (sample_outside HeadOk (Ok None) None false)
              (S3Storage_init (sample_env_with sample_vars sample_generated true)
                 (sample_outside HeadOk (Ok None) None false))
              (SupabaseClient_init (sample_env_with sample_vars sample_generated true)
                 (sample_outside HeadOk (Ok None) None false))
              sample_world sample_world
              (HTTPExceptionOf 500 (Raised "OSError" "Read-only file system")))
    as (e & He & [(Hdir & _)|[(Hopen & _)|(Hcwd & _)]]).
  - vm_compute. reflexivity.
  - discriminate.
  - exists e. split; [|exact Hopen]. vm_compute. by rewrite He.
  - discriminate.
Defined.


Lemma podcast_id_needs_object_store_witness :
  exists e,
    fst (sample_run (sample_env_with [] sample_generated false)
           (sample_data (Some "p1")))
    = Raise (HTTPExceptionOf 500 e).
Proof.
  apply (podcast_id_needs_object_store (sample_env_with [] sample_generated false)
           (sample_data (Some "p1")) sample_world
           (snd (sample_run (sample_env_with [] sample_generated false)
                   (sample_data (Some "p1"))))).
  - reflexivity.
  - apply surjective_pairing.
  - vm_compute. reflexivity.
Defined.

Lemma addIntroToAudio_failed_export_leaves_empty_file_witness :
  addIntroToAudio sample_env_no_encoder "/tmp/podcast.mp3" sample_world_generated
  = (Ok "/tmp/podcast.mp3",
     {| w_heap := [];
        w_files := <["/app/temp_audio/tmpab12.mp3" := []]>
                     (w_files sample_world_generated);
        w_trace := [EvCreate "/app/temp_audio/tmpab12.mp3"] |}).
Proof.
  apply (addIntroToAudio_failed_export_leaves_empty_file sample_env_no_encoder
           "/tmp/podcast.mp3" "/app/temp_audio/tmpab12.mp3" sample_world_generated
           ["R"; "I"; "F"; "F"]%byte ["I"; "D"; "3"]%byte
           {| pcm := ["R"; "I"; "F"; "F"]%byte; millis := 1500 |}
           {| pcm := ["I"; "D"; "3"]%byte; millis := 61999 |}
           {| pcm := ["R"; "I"; "F"; "F"; "I"; "D"; "3"]%byte; millis := 63499 |}
           (Raised "CouldntEncodeError" "encoder missing")).
  - vm_compute. reflexivity.
  - reflexivity.
  - vm_compute. reflexivity.
  - reflexivity.
  - reflexivity.
  - reflexivity.
  - reflexivity.
Defined.

Lemma addIntroToAudio_returns_existing_file_witness :
  is_Some
    (w_files (snd (addIntroToAudio (sample_env None true true) "/tmp/podcast.mp3"
                     sample_world_generated))
       !! "/app/temp_audio/tmpab12.mp3").
Proof.
  apply (addIntroToAudio_returns_existing_file (sample_env None true true)
           "/tmp/podcast.mp3" "/app/temp_audio/tmpab12.mp3"
           sample_world_generated
           (snd (addIntroToAudio (sample_env None true true) "/tmp/podcast.mp3"
                   sample_world_generated))).
  - intros tmp H. injection H as <-. vm_compute. reflexivity.
  - exists ["I"; "D"; "3"]%byte. vm_compute. reflexivity.
  - vm_compute. reflexivity.
Defined.
